(** * make_plandata: recurrence expansion and gap filling

    A shallow embedding of [make_plandata.py].  The script reads a table of
    recurring repair works (one row per work: version, category, name,
    first year, period, amount, remark), expands every row into one record
    per occurrence year inside the planning window, and appends a dummy
    record for every year of the window that is left without work.

    Python values are modelled as they appear in the script: a [str] is a
    sequence of Unicode code points, a cell of an output record is an [int]
    or a [str], lists are Rocq lists with Python's indexing, slice deletion
    and [insert], and an exception is an explicit [Raise] outcome. *)

From Stdlib Require Import ZArith NArith List Bool Lia String Ascii FinFun.
From Stdlib Require Import Sorted.
Import ListNotations.
Local Open Scope Z_scope.

(** ** Python values *)

(** A Python [str]: the sequence of its code points. *)
Definition pystr := list N.

(** ASCII literals. *)
Definition u (s : string) : pystr := map N_of_ascii (list_ascii_of_string s).

Inductive pyval :=
| PInt (z : Z)
| PStr (s : pystr).

(** A line as [csv.reader] yields it, and a row of the output list. *)
Definition row := list pystr.
Definition record := list pyval.

Inductive exn := TypeError | ValueError | IndexError | OSError.

Inductive result (A : Type) :=
| Ok (a : A)
| Raise (e : exn).
Arguments Ok {A} a.
Arguments Raise {A} e.

Definition bind {A B} (m : result A) (k : A -> result B) : result B :=
  match m with
  | Ok a => k a
  | Raise e => Raise e
  end.

Notation "x <- m ;; k" := (bind m (fun x => k))
  (at level 61, m at next level, right associativity).

Definition pystr_eqb (a b : pystr) : bool :=
  if list_eq_dec N.eq_dec a b then true else false.

(** [==] between the values of the model; an [int] never equals a [str]. *)
Definition pyval_eqb (a b : pyval) : bool :=
  match a, b with
  | PInt x, PInt y => x =? y
  | PStr s, PStr t => pystr_eqb s t
  | _, _ => false
  end.

(** ** Python list operations used by the script *)

(** [l[i]] for a non-negative index. *)
Definition py_get {A} (l : list A) (i : nat) : result A :=
  match nth_error l i with
  | Some x => Ok x
  | None => Raise IndexError
  end.

(** [del l[lo:hi]] for [0 <= lo <= hi]; the slice is clamped to the list. *)
Definition py_del_slice {A} (lo hi : nat) (l : list A) : list A :=
  firstn lo l ++ skipn hi l.

(** [l.insert(i, x)] for a non-negative index; past the end it appends. *)
Definition py_insert {A} (i : nat) (x : A) (l : list A) : list A :=
  firstn i l ++ x :: skipn i l.

(** [range(lo, hi)]. *)
Definition py_range (lo hi : Z) : list Z :=
  map (fun i => lo + Z.of_nat i) (seq 0 (Z.to_nat (hi - lo))).

(** ** [str.strip] and [int] *)

(** The code points [str.strip()] removes. *)
Definition is_space (c : N) : bool :=
  (((9 <=? c) && (c <=? 13)) || ((28 <=? c) && (c <=? 32))
   || (c =? 133) || (c =? 160) || (c =? 5760)
   || ((8192 <=? c) && (c <=? 8202))
   || (c =? 8232) || (c =? 8233) || (c =? 8239) || (c =? 8287)
   || (c =? 12288))%N.

Fixpoint py_lstrip (s : pystr) : pystr :=
  match s with
  | [] => []
  | c :: s' => if is_space c then py_lstrip s' else s
  end.

Definition py_strip (s : pystr) : pystr :=
  rev (py_lstrip (rev (py_lstrip s))).

(** [cell.strip() == ""]. *)
Definition strip_is_empty (s : pystr) : bool :=
  match py_strip s with
  | [] => true
  | _ :: _ => false
  end.

(** The white space [int()] skips around a number: that of [str.strip()]
    but for the four ASCII separators U+001C to U+001F, which [int()]
    refuses. *)
Definition int_space (c : N) : bool :=
  is_space c && negb ((28 <=? c) && (c <=? 31))%N.

Fixpoint drop_spaces (s : pystr) : pystr :=
  match s with
  | [] => []
  | c :: s' => if int_space c then drop_spaces s' else s
  end.

(** The code points of the digit zero of every script with decimal digits
    (Unicode 14.0, the table of CPython 3.11): ASCII first, then
    Arabic-Indic, ..., full-width U+FF10, ...; the nine code points after
    each are its digits one to nine. *)
Definition decimal_zeros : list N :=
  [48; 1632; 1776; 1984; 2406; 2534; 2662; 2790;
   2918; 3046; 3174; 3302; 3430; 3558; 3664; 3792;
   3872; 4160; 4240; 6112; 6160; 6470; 6608; 6784;
   6800; 6992; 7088; 7232; 7248; 42528; 43216; 43264;
   43472; 43504; 43600; 44016; 65296; 66720; 68912; 69734;
   69872; 69942; 70096; 70384; 70736; 70864; 71248; 71360;
   71472; 71904; 72016; 72784; 73040; 73120; 92768; 92864;
   93008; 120782; 120792; 120802; 120812; 120822; 123200; 123632;
   125264; 130032]%N.

(** The value of a decimal digit of any script. *)
Definition digit_of (c : N) : option Z :=
  match find (fun z => (z <=? c) && (c <? z + 10))%N decimal_zeros with
  | Some z => Some (Z.of_N (c - z))
  | None => None
  end.

(** Decimal digits, single underscores allowed between two digits. *)
Fixpoint digits_value (acc : Z) (after_digit : bool) (s : pystr) : option Z :=
  match s with
  | [] => if after_digit then Some acc else None
  | c :: s' =>
      match digit_of c with
      | Some d => digits_value (10 * acc + d) true s'
      | None =>
          if ((c =? 95)%N && after_digit)%bool
          then digits_value acc false s'
          else None
      end
  end.

(** The number of digits of a string. *)
Definition digit_count (s : pystr) : nat :=
  List.length (filter (fun c => match digit_of c with
                                | Some _ => true
                                | None => false
                                end) s).

(** [sys.get_int_max_str_digits()], left at its default. *)
Definition int_max_str_digits : nat := 4300.

(** [int(s)] on a [str], base 10: white space around, an optional ASCII
    sign, decimal digits of any script with single underscores between
    them, and no more digits than the interpreter's limit.  Everything
    else is a [ValueError]. *)
Definition py_int (s : pystr) : result Z :=
  let body := rev (drop_spaces (rev (drop_spaces s))) in
  let parsed :=
    match body with
    | 43%N :: ds => digits_value 0 false ds
    | 45%N :: ds => option_map Z.opp (digits_value 0 false ds)
    | ds => digits_value 0 false ds
    end in
  match parsed with
  | Some z =>
      if (int_max_str_digits <? digit_count body)%nat
      then Raise ValueError
      else Ok z
  | None => Raise ValueError
  end.

(** ** The script *)

(** [limmit_num = 100] *)
Definition limmit_num : Z := 100.

(** The unit token, U+5F0F. *)
Definition unit_shiki : pystr := [24335%N].

(** The label of a dummy work, U+30C0 U+30DF U+30FC U+5DE5 U+4E8B. *)
Definition dummy_label : pystr := [12480; 12511; 12540; 24037; 20107]%N.

(** The record [add_planlist] builds: a copy of the row with fields 3 and 4
    deleted and the year, the quantity, the unit and the actual amount
    spliced in, in the order of the four [insert] calls. *)
Definition tmplist_of (r : row) (yyyy : Z) : record :=
  let tmplist := map PStr r in
  let tmplist := py_del_slice 3 5 tmplist in
  let tmplist := py_insert 1 (PInt yyyy) tmplist in
  let tmplist := py_insert 4 (PInt 1) tmplist in
  let tmplist := py_insert 5 (PStr unit_shiki) tmplist in
  py_insert 7 (PInt 0) tmplist.

(** [add_planlist(row, yyyy, start_year, plan_list)]: the list after the
    call, and the next year or the exception of [int(row[4])].  The record
    is appended before the period is read. *)
Definition add_planlist (r : row) (yyyy start_year : Z)
    (plan_list : list record) : list record * result Z :=
  let tmplist := tmplist_of r yyyy in
  let plan_list :=
    if yyyy >=? start_year then plan_list ++ [tmplist] else plan_list in
  (plan_list, c <- py_get r 4 ;; p <- py_int c ;; Ok (yyyy + p)).

(** How the loop over one row ended. *)
Inductive loop_exit :=
| WindowBreak               (* [yyyy >= last_year] *)
| OneTimeBreak              (* [int(row[4]) < 1] *)
| RangeExhausted            (* the [range] ran out *)
| Raised (e : exn).

Record loop_end := mk_loop_end {
  plan_after : list record;
  iterations : nat;
  exit_by : loop_exit
}.

Definition one_more (l : loop_end) : loop_end :=
  mk_loop_end (plan_after l) (S (iterations l)) (exit_by l).

(** The inner [for i in range(1, limmit_num)] of [make_plan], with [n]
    values of the range left. *)
Fixpoint row_loop (n : nat) (r : row) (yyyy start_year last_year : Z)
    (plan_list : list record) : loop_end :=
  match n with
  | O => mk_loop_end plan_list 0 RangeExhausted
  | S n' =>
      if yyyy >=? last_year then mk_loop_end plan_list 1 WindowBreak
      else
        let (plan_list, next) := add_planlist r yyyy start_year plan_list in
        match next with
        | Raise e => mk_loop_end plan_list 1 (Raised e)
        | Ok yyyy =>
            match c <- py_get r 4 ;; py_int c with
            | Raise e => mk_loop_end plan_list 1 (Raised e)
            | Ok p =>
                if p <? 1 then mk_loop_end plan_list 1 OneTimeBreak
                else one_more (row_loop n' r yyyy start_year last_year plan_list)
            end
        end
  end.

(** The number of values of [range(1, limmit_num)]. *)
Definition row_loop_range : nat := List.length (py_range 1 limmit_num).

(** The outer [for row in data_list] of [make_plan], on the list it grows. *)
Fixpoint make_plan_rows (data_list : list row) (start_year last_year : Z)
    (plan_list : list record) : list record * result unit :=
  match data_list with
  | [] => (plan_list, Ok tt)
  | r :: rest =>
      match c <- py_get r 3 ;; py_int c with
      | Raise e => (plan_list, Raise e)
      | Ok yyyy =>
          let l := row_loop row_loop_range r yyyy start_year last_year plan_list in
          match exit_by l with
          | Raised e => (plan_after l, Raise e)
          | _ => make_plan_rows rest start_year last_year (plan_after l)
          end
      end
  end.

(** What [read_csv] hands over: the rows, or [False]. *)
Inductive pydata :=
| PyFalse
| PyRows (rows : list row).

(** [make_plan(data_list, start_year, last_year)]; iterating over [False]
    is a [TypeError]. *)
Definition make_plan (data_list : pydata) (start_year last_year : Z)
    : result (list record) :=
  match data_list with
  | PyFalse => Raise TypeError
  | PyRows rows =>
      match make_plan_rows rows start_year last_year [] with
      | (plan_list, Ok _) => Ok plan_list
      | (_, Raise e) => Raise e
      end
  end.

(** ** [fill_dummydata] *)

(** [l[i] = x] for an index inside the list. *)
Definition py_store {A} (i : nat) (x : A) (l : list A) : list A :=
  firstn i l ++ x :: skipn (S i) l.

Fixpoint insert_sorted {A} (leb : A -> A -> bool) (x : A) (l : list A) : list A :=
  match l with
  | [] => [x]
  | y :: l' => if leb x y then x :: l else y :: insert_sorted leb x l'
  end.

Definition sort_by {A} (leb : A -> A -> bool) (l : list A) : list A :=
  fold_right (insert_sorted leb) [] l.

(** Order of two [str]: code point by code point. *)
Fixpoint pystr_leb (a b : pystr) : bool :=
  match a, b with
  | [], _ => true
  | _ :: _, [] => false
  | x :: a', y :: b' => ((x <? y) || ((x =? y) && pystr_leb a' b'))%N
  end.

Definition ints_of (l : list pyval) : list Z :=
  flat_map (fun v => match v with PInt z => [z] | PStr _ => [] end) l.

Definition strs_of (l : list pyval) : list pystr :=
  flat_map (fun v => match v with PInt _ => [] | PStr s => [s] end) l.

(** [u = list(set(l)); u.sort()]: the distinct values in ascending order.
    Ordering an [int] against a [str] is a [TypeError]. *)
Definition py_sorted_set (l : list pyval) : result (list pyval) :=
  match nodup Z.eq_dec (ints_of l), nodup (list_eq_dec N.eq_dec) (strs_of l) with
  | zs, [] => Ok (map PInt (sort_by Z.leb zs))
  | [], ss => Ok (map PStr (sort_by pystr_leb ss))
  | _ :: _, _ :: _ => Raise TypeError
  end.

(** [x in l]. *)
Definition py_in (x : pyval) (l : list pyval) : bool :=
  existsb (pyval_eqb x) l.

(** The first loop of [fill_dummydata]: [i[1]] of every record. *)
Fixpoint year_list_of (plan_list : list record) : result (list pyval) :=
  match plan_list with
  | [] => Ok []
  | i :: rest =>
      y <- py_get i 1 ;; ys <- year_list_of rest ;; Ok (y :: ys)
  end.

Definition dummy_template : record :=
  [PInt 5; PInt 0; PStr dummy_label; PStr dummy_label;
   PInt 1; PStr unit_shiki; PInt 0; PInt 0; PStr []].

(** [dummy_data] after [dummy_data[1] = cnt_year]. *)
Definition dummy_data (cnt_year : Z) : record :=
  py_store 1 (PInt cnt_year) dummy_template.

(** The second loop, over the years of [range(start_year, last_year)] that
    are left.  [unique_year_list] is not updated while the list grows, and
    the final [cnt_year += 1] is overwritten by the next value of the
    range. *)
Fixpoint fill_loop (years : list Z) (unique_year_list : list pyval)
    (plan_list : list record) : list record :=
  match years with
  | [] => plan_list
  | cnt_year :: rest =>
      if py_in (PInt cnt_year) unique_year_list
      then fill_loop rest unique_year_list plan_list
      else fill_loop rest unique_year_list (plan_list ++ [dummy_data cnt_year])
  end.

(** [fill_dummydata(plan_list, start_year, last_year)] *)
Definition fill_dummydata (plan_list : list record) (start_year last_year : Z)
    : result (list record) :=
  year_list <- year_list_of plan_list ;;
  unique_year_list <- py_sorted_set year_list ;;
  Ok (fill_loop (py_range start_year last_year) unique_year_list plan_list).

(** ** Reading, writing and the driver *)

Inductive message :=
| MsgReviewYears                       (* window empty or reversed *)
| MsgSpanLimit (limit : Z)             (* window longer than the limit *)
| MsgFileNotFound
| MsgEmptyVersion (line_no : nat) (r : row)
| MsgCsvError
| MsgReadError
| MsgEmptyData
| MsgWriteError.

Inductive stream := Stdout | Stderr.

(** [read_csv] prints to [sys.stderr], the rest to standard output. *)
Definition stream_of (m : message) : stream :=
  match m with
  | MsgFileNotFound | MsgEmptyVersion _ _ | MsgCsvError | MsgReadError => Stderr
  | MsgReviewYears | MsgSpanLimit _ | MsgEmptyData | MsgWriteError => Stdout
  end.

(** How [csv.reader] ends after its last line. *)
Inductive reader_end :=
| EndOfFile
| CsvError                  (* [csv.Error] *)
| OtherError.               (* any other exception, a decoding error say *)

(** What the path given on the command line names, once [path.is_file()]
    has answered: no file, or a file that opens or does not. *)
Inductive file_state :=
| NotAFile
| OpenFails
| Opens (lines : list row) (ending : reader_end).

(** [not row or all(cell.strip() == "" for cell in row)] *)
Definition row_is_blank (r : row) : bool :=
  match r with
  | [] => true
  | _ :: _ => forallb strip_is_empty r
  end.

(** The [for line_no, row in enumerate(reader, start=2)] of [read_csv];
    every exception is caught and turned into [False]. *)
Fixpoint read_rows (line_no : nat) (lines : list row) (ending : reader_end)
    (rows : list row) : list message * pydata :=
  match lines with
  | [] =>
      match ending with
      | EndOfFile => ([], PyRows rows)
      | CsvError => ([MsgCsvError], PyFalse)
      | OtherError => ([MsgReadError], PyFalse)
      end
  | r :: rest =>
      if row_is_blank r then read_rows (S line_no) rest ending rows
      else
        match py_get r 0 with
        | Raise _ => ([MsgReadError], PyFalse)
        | Ok version =>
            if strip_is_empty version
            then ([MsgEmptyVersion line_no r], PyFalse)
            else read_rows (S line_no) rest ending (rows ++ [r])
        end
  end.

(** [read_csv(file_path)] from the answer of [path.is_file()] on;
    [next(reader, None)] drops the header. *)
Definition read_csv (f : file_state) : list message * pydata :=
  match f with
  | NotAFile => ([MsgFileNotFound], PyFalse)
  | OpenFails => ([MsgReadError], PyFalse)
  | Opens lines ending => read_rows 2 (tl lines) ending []
  end.

(** What [path.is_file()], the first statement of [read_csv], meets. *)
Inductive path_state :=
| CannotStat                (* it raises [OSError]: a path it may not examine *)
| Examined (f : file_state).

(** [read_csv(file_path)] as a whole.  [path.is_file()] stands before the
    [try], so its [OSError] leaves [read_csv] uncaught, with nothing
    printed. *)
Definition read_csv_call (p : path_state) : result (list message * pydata) :=
  match p with
  | CannotStat => Raise OSError
  | Examined f => Ok (read_csv f)
  end.

(** [save_csv(file_path, data_list)]: the messages, the returned flag and
    the rows written by a write that completed; [writable] tells whether
    opening and writing the output file succeeds.  When it does not, the
    file may be left missing, empty or partial: the model only records
    that the list was not written. *)
Definition save_csv (writable : bool) (data_list : list record)
    : list message * bool * option (list record) :=
  match data_list with
  | [] => ([MsgEmptyData], false, None)
  | _ :: _ =>
      if writable then ([], true, Some data_list)
      else ([MsgWriteError], false, None)
  end.

(** The parsed command line; in place of the path, what the path names. *)
Record args := mk_args {
  arg_file : file_state;
  arg_start_year : Z;
  arg_last_year : Z
}.

Inductive termination :=
| Returns                         (* [main] runs to its end *)
| SysExit (code : option Z)       (* [sys.exit()] or [sys.exit(code)] *)
| Uncaught (e : exn).

(** The status the interpreter exits with. *)
Definition exit_status (t : termination) : Z :=
  match t with
  | Returns => 0
  | SysExit None => 0
  | SysExit (Some code) => code
  | Uncaught _ => 1
  end.

(** What a run leaves: the messages in the order printed, how it ended,
    and the list the output file holds when a write completed ([None]
    when [save_csv] was not reached or its write did not complete). *)
Record outcome := mk_outcome {
  printed : list message;
  ended : termination;
  written : option (list record)
}.

(** [main()] from [parser.parse_args()] on, for a path that
    [path.is_file()] can examine. *)
Definition main (a : args) (writable : bool) : outcome :=
  let start_year := arg_start_year a in
  let last_year := arg_last_year a in
  if last_year <=? start_year
  then mk_outcome [MsgReviewYears] (SysExit None) None
  else if last_year - start_year >? limmit_num
  then mk_outcome [MsgSpanLimit limmit_num] (SysExit None) None
  else
    let (msgs, data_list) := read_csv (arg_file a) in
    match make_plan data_list start_year last_year with
    | Raise e => mk_outcome msgs (Uncaught e) None
    | Ok plan_list =>
        match fill_dummydata plan_list start_year last_year with
        | Raise e => mk_outcome msgs (Uncaught e) None
        | Ok full_plan_list =>
            let '(msgs', _, file) := save_csv writable full_plan_list in
            mk_outcome (msgs ++ msgs') Returns file
        end
    end.

(** ** Notions used in the statements *)

(** The year of a record: the [int] at index 1. *)
Definition year_of (rec : record) : option Z :=
  match nth_error rec 1 with
  | Some (PInt y) => Some y
  | _ => None
  end.

(** The years the inner loop visits before it leaves: the cursor values
    below [last_year], at most [n] of them. *)
Fixpoint cursor_years (n : nat) (yyyy p last_year : Z) : list Z :=
  match n with
  | O => []
  | S n' =>
      if yyyy >=? last_year then []
      else yyyy :: cursor_years n' (yyyy + p) p last_year
  end.

(** A row [make_plan] can expand: the year and the period are integers. *)
Definition expandable (r : row) : Prop :=
  (exists c Y, py_get r 3 = Ok c /\ py_int c = Ok Y) /\
  (exists c P, py_get r 4 = Ok c /\ py_int c = Ok P).

(** The years of the window that no record of the list carries. *)
Definition missing_years (ys : list pyval) (start_year last_year : Z) : list Z :=
  filter (fun y => negb (py_in (PInt y) ys)) (py_range start_year last_year).

(** A well-formed input item: 7 fields, integer first year and period. *)
Definition well_formed (r : row) : Prop :=
  List.length r = 7%nat /\ expandable r.

(** The fixed fields of an output record: quantity, unit, actual amount. *)
Definition fixed_fields (rec : record) : Prop :=
  nth_error rec 4 = Some (PInt 1) /\
  nth_error rec 5 = Some (PStr unit_shiki) /\
  nth_error rec 7 = Some (PInt 0).

(** A data line [read_csv] rejects: not blank, with a blank first cell. *)
Definition version_is_blank (r : row) : bool :=
  negb (row_is_blank r) &&
  match r with
  | [] => false
  | version :: _ => strip_is_empty version
  end.

(** ** Sample inputs *)

Definition header_line : row :=
  [u "ver"; u "kind"; u "name"; u "first"; u "period"; u "amount"; u "remark"].

(** A roof repair first due in [first_year], repeated every [period] years. *)
Definition roof_work (first_year period : string) : row :=
  [u "1"; u "roof"; u "roof repair"; u first_year; u period; u "500000"; u ""].

(** * Properties *)

(** ** Results and list primitives *)

Lemma bind_Ok {A B} (m : result A) (k : A -> result B) (b : B) :
  bind m k = Ok b -> exists a, m = Ok a /\ k a = Ok b.
Proof.
  destruct m as [a|e]; simpl; intros H; [eauto | discriminate].
Qed.

Lemma py_get_Ok {A} (l : list A) (i : nat) (x : A) :
  py_get l i = Ok x <-> nth_error l i = Some x.
Proof.
  unfold py_get. destruct (nth_error l i); split; intros H;
    try discriminate; inversion H; reflexivity.
Qed.

Lemma py_get_length {A} (l : list A) (i : nat) (x : A) :
  py_get l i = Ok x -> (i < List.length l)%nat.
Proof.
  intros H. apply py_get_Ok in H. apply nth_error_Some. congruence.
Qed.

Lemma py_range_length (lo hi : Z) :
  List.length (py_range lo hi) = Z.to_nat (hi - lo).
Proof.
  unfold py_range. now rewrite length_map, length_seq.
Qed.

Lemma py_range_In (lo hi y : Z) : In y (py_range lo hi) <-> lo <= y < hi.
Proof.
  unfold py_range. rewrite in_map_iff. split.
  - intros (i & <- & Hi). apply in_seq in Hi. lia.
  - intros H. exists (Z.to_nat (y - lo)). split; [lia|].
    apply in_seq. lia.
Qed.

Lemma py_range_NoDup (lo hi : Z) : NoDup (py_range lo hi).
Proof.
  unfold py_range. apply Injective_map_NoDup; [|apply seq_NoDup].
  intros i j H. lia.
Qed.

Lemma row_loop_range_eq : row_loop_range = 99%nat.
Proof. reflexivity. Qed.

(** [int()] on some fields: digits of other scripts are read, the ASCII
    separators that [str.strip()] removes are refused. *)
Example py_int_samples :
  py_int (u " 2025 ") = Ok 2025 /\
  py_int [65298; 65296; 65298; 65301]%N = Ok 2025 /\
  py_int [12288; 45; 1635; 95; 55]%N = Ok (-37) /\
  py_int (28%N :: u "2025") = Raise ValueError /\
  strip_is_empty [28%N] = true /\
  py_int (u "1__0") = Raise ValueError /\
  py_int (u "") = Raise ValueError.
Proof. repeat split; vm_compute; reflexivity. Qed.

(** The limit on the number of digits: 4300 pass, 4301 do not. *)
Example py_int_digit_limit :
  match py_int (repeat 49%N 4300) with Ok _ => true | Raise _ => false end
  = true /\
  py_int (repeat 49%N 4301) = Raise ValueError.
Proof. split; vm_compute; reflexivity. Qed.

(** ** The record built from a row *)

Lemma tmplist_of_year (r : row) (c : pystr) (yyyy : Z) :
  py_get r 3 = Ok c -> year_of (tmplist_of r yyyy) = Some yyyy.
Proof.
  intros H. apply py_get_Ok in H.
  destruct r as [|f0 [|f1 [|f2 [|f3 r]]]]; try discriminate.
  destruct r as [|f4 [|f5 r]]; reflexivity.
Qed.

Lemma tmplist_of_seven (r : row) (yyyy : Z) :
  List.length r = 7%nat ->
  exists ver kind name amount remark,
    tmplist_of r yyyy =
    [PStr ver; PInt yyyy; PStr kind; PStr name; PInt 1; PStr unit_shiki;
     PStr amount; PInt 0; PStr remark].
Proof.
  intros H.
  destruct r as [|f0 [|f1 [|f2 [|f3 [|f4 [|f5 [|f6 [|f7 r]]]]]]]];
    try discriminate.
  now exists f0, f1, f2, f5, f6.
Qed.

(** ** The loop over one row *)

Section RowLoop.

Variables (r : row) (start_year last_year : Z).

Lemma add_planlist_fst (yyyy : Z) (plan_list : list record) :
  fst (add_planlist r yyyy start_year plan_list) =
  if yyyy >=? start_year then plan_list ++ [tmplist_of r yyyy] else plan_list.
Proof. reflexivity. Qed.

(** One round of the loop for a row whose period reads as [p >= 1]. *)
Lemma row_loop_step (n : nat) (yyyy p : Z) (c : pystr) (plan_list : list record) :
  py_get r 4 = Ok c -> py_int c = Ok p -> 1 <= p -> yyyy < last_year ->
  row_loop (S n) r yyyy start_year last_year plan_list =
  one_more (row_loop n r (yyyy + p) start_year last_year
              (if yyyy >=? start_year
               then plan_list ++ [tmplist_of r yyyy] else plan_list)).
Proof.
  intros Hc Hp Hp1 Hy. cbn [row_loop].
  destruct (Z.geb_spec yyyy last_year) as [?|_]; [lia|].
  unfold add_planlist. rewrite Hc. cbn [bind]. rewrite Hp. cbn [bind].
  destruct (Z.ltb_spec p 1); [lia|reflexivity].
Qed.

(** Every record the loop appends is built from the row at a year of the
    window; this holds however the loop ends. *)
Lemma row_loop_Forall (P : record -> Prop) (n : nat) :
  (forall y, start_year <= y < last_year -> P (tmplist_of r y)) ->
  forall yyyy plan_list,
    Forall P plan_list ->
    Forall P (plan_after (row_loop n r yyyy start_year last_year plan_list)).
Proof.
  intros HP. induction n as [|n IH]; intros yyyy plan_list Hpl; [exact Hpl|].
  cbn [row_loop].
  destruct (Z.geb_spec yyyy last_year) as [?|Hy]; [exact Hpl|].
  assert (Hpl' : Forall P (fst (add_planlist r yyyy start_year plan_list))).
  { rewrite add_planlist_fst.
    destruct (Z.geb_spec yyyy start_year); [|exact Hpl].
    apply Forall_app. split; [exact Hpl|].
    constructor; [apply HP; lia|constructor]. }
  destruct (add_planlist r yyyy start_year plan_list) as [pl next].
  cbn [fst] in Hpl'.
  destruct next as [y'|e]; [|exact Hpl'].
  destruct (c <- py_get r 4 ;; py_int c) as [p|e]; [|exact Hpl'].
  destruct (p <? 1); [exact Hpl'|].
  cbn [one_more plan_after]. now apply IH.
Qed.

Lemma row_loop_iterations (n : nat) (yyyy : Z) (plan_list : list record) :
  (iterations (row_loop n r yyyy start_year last_year plan_list) <= n)%nat.
Proof.
  revert yyyy plan_list. induction n as [|n IH]; intros yyyy plan_list;
    [apply Nat.le_refl|].
  cbn [row_loop].
  destruct (yyyy >=? last_year); [cbn; lia|].
  destruct (add_planlist r yyyy start_year plan_list) as [pl [y'|e]];
    [|cbn; lia].
  destruct (c <- py_get r 4 ;; py_int c) as [p|e]; [|cbn; lia].
  destruct (p <? 1); [cbn; lia|].
  cbn [one_more iterations]. specialize (IH y' pl). lia.
Qed.

Section Periodic.

Variables (c : pystr) (p : Z).
Hypothesis Hc : py_get r 4 = Ok c.
Hypothesis Hp : py_int c = Ok p.
Hypothesis Hp1 : 1 <= p.

(** With a period of at least 1 the loop appends the record of every
    visited year that is not below [start_year]. *)
Lemma row_loop_plan (n : nat) (yyyy : Z) (plan_list : list record) :
  plan_after (row_loop n r yyyy start_year last_year plan_list) =
  plan_list ++
  map (tmplist_of r)
      (filter (fun y => y >=? start_year) (cursor_years n yyyy p last_year)).
Proof.
  revert yyyy plan_list.
  induction n as [|n IH]; intros yyyy plan_list.
  - cbn. now rewrite app_nil_r.
  - destruct (Z.geb_spec yyyy last_year) as [Hge|Hlt].
    + cbn [row_loop cursor_years].
      destruct (Z.geb_spec yyyy last_year); [|lia].
      cbn. now rewrite app_nil_r.
    + rewrite (row_loop_step n yyyy p c) by assumption.
      cbn [one_more plan_after cursor_years]. rewrite IH.
      destruct (Z.geb_spec yyyy last_year); [lia|].
      cbn [filter].
      destruct (yyyy >=? start_year); [|reflexivity].
      cbn [map]. now rewrite <- app_assoc.
Qed.

(** The loop leaves by the window test when one of its [n] rounds sees
    a year at or past [last_year]. *)
Lemma row_loop_window (n : nat) (yyyy : Z) (plan_list : list record) :
  last_year <= yyyy + (Z.of_nat n - 1) * p -> (0 < n)%nat ->
  exit_by (row_loop n r yyyy start_year last_year plan_list) = WindowBreak.
Proof.
  revert yyyy plan_list.
  induction n as [|n IH]; intros yyyy plan_list Hn Hpos; [lia|].
  destruct (Z.geb_spec yyyy last_year) as [Hge|Hlt].
  - cbn [row_loop]. destruct (Z.geb_spec yyyy last_year); [reflexivity|lia].
  - rewrite (row_loop_step n yyyy p c) by assumption.
    cbn [one_more exit_by]. apply IH; [|nia]. nia.
Qed.

(** Otherwise all [n] rounds append and the range runs out. *)
Lemma row_loop_exhausted (n : nat) (yyyy : Z) (plan_list : list record) :
  yyyy + (Z.of_nat n - 1) * p < last_year ->
  exit_by (row_loop n r yyyy start_year last_year plan_list) = RangeExhausted
  /\ iterations (row_loop n r yyyy start_year last_year plan_list) = n.
Proof.
  revert yyyy plan_list.
  induction n as [|n IH]; intros yyyy plan_list Hn; [now split|].
  assert (yyyy < last_year) by nia.
  rewrite (row_loop_step n yyyy p c) by assumption.
  cbn [one_more exit_by iterations].
  destruct (IH (yyyy + p)
              (if yyyy >=? start_year
               then plan_list ++ [tmplist_of r yyyy] else plan_list))
    as [-> ->]; [nia|now split].
Qed.

End Periodic.

(** A period below 1: one round at most. *)
Lemma row_loop_one_time (n : nat) (yyyy p : Z) (c : pystr)
    (plan_list : list record) :
  py_get r 4 = Ok c -> py_int c = Ok p -> p < 1 -> yyyy < last_year ->
  row_loop (S n) r yyyy start_year last_year plan_list =
  mk_loop_end (if yyyy >=? start_year
               then plan_list ++ [tmplist_of r yyyy] else plan_list)
              1 OneTimeBreak.
Proof.
  intros Hc Hp Hp1 Hy. cbn [row_loop].
  destruct (Z.geb_spec yyyy last_year) as [?|_]; [lia|].
  unfold add_planlist. rewrite Hc. cbn [bind]. rewrite Hp. cbn [bind].
  destruct (Z.ltb_spec p 1); [reflexivity|lia].
Qed.

End RowLoop.

(** The loop does not look at the records already in the list. *)
Lemma row_loop_frame (n : nat) (r : row) (yyyy start_year last_year : Z)
    (plan_list : list record) :
  row_loop n r yyyy start_year last_year plan_list =
  let l := row_loop n r yyyy start_year last_year [] in
  mk_loop_end (plan_list ++ plan_after l) (iterations l) (exit_by l).
Proof.
  revert yyyy plan_list. induction n as [|n IH]; intros yyyy plan_list.
  - cbn. now rewrite app_nil_r.
  - cbn [row_loop]. destruct (yyyy >=? last_year).
    + cbn. now rewrite app_nil_r.
    + unfold add_planlist.
      set (pl := if yyyy >=? start_year then plan_list ++ _ else plan_list).
      set (pl0 := if yyyy >=? start_year then [] ++ _ else []).
      assert (Hpl : pl = plan_list ++ pl0).
      { subst pl pl0. destruct (yyyy >=? start_year);
          [reflexivity | now rewrite app_nil_r]. }
      destruct (c <- py_get r 4 ;; p <- py_int c ;; Ok (yyyy + p)) as [y'|e];
        [|cbn; now rewrite Hpl].
      destruct (c <- py_get r 4 ;; py_int c) as [p|e]; [|cbn; now rewrite Hpl].
      destruct (p <? 1); [cbn; now rewrite Hpl|].
      rewrite (IH y' pl), (IH y' pl0). cbn.
      now rewrite Hpl, app_assoc.
Qed.

(** ** The cursor *)

Section CursorYears.

Variables (p last_year : Z).
Hypothesis Hp1 : 1 <= p.

Lemma cursor_years_past (n : nat) (yyyy : Z) :
  last_year <= yyyy -> cursor_years n yyyy p last_year = [].
Proof.
  intros H. destruct n; [reflexivity|]. cbn.
  destruct (Z.geb_spec yyyy last_year); [reflexivity|lia].
Qed.

Lemma cursor_years_In (n : nat) (yyyy x : Z) :
  In x (cursor_years n yyyy p last_year) <->
  x < last_year /\ exists k, 0 <= k < Z.of_nat n /\ x = yyyy + k * p.
Proof.
  revert yyyy. induction n as [|n IH]; intros yyyy.
  - cbn. split; [tauto|]. intros (_ & k & Hk & _). lia.
  - cbn [cursor_years]. destruct (Z.geb_spec yyyy last_year) as [Hge|Hlt].
    + split; [intros []|]. intros (Hx & k & Hk & ->). nia.
    + cbn [In]. rewrite IH. split.
      * intros [<-|(Hx & k & Hk & ->)].
        -- split; [lia|]. exists 0. lia.
        -- split; [lia|]. exists (k + 1). lia.
      * intros (Hx & k & Hk & ->).
        destruct (Z.eq_dec k 0) as [->|Hk0]; [left; lia|].
        right. split; [lia|]. exists (k - 1). lia.
Qed.

Lemma cursor_years_NoDup (n : nat) (yyyy : Z) :
  NoDup (cursor_years n yyyy p last_year).
Proof.
  revert yyyy. induction n as [|n IH]; intros yyyy; [constructor|].
  cbn [cursor_years]. destruct (yyyy >=? last_year); [constructor|].
  constructor; [|apply IH].
  rewrite cursor_years_In. intros (_ & k & Hk & Hx). nia.
Qed.

(** When [n] rounds reach [last_year], the visited years are counted by
    the quotient of the distance to the last year of the window. *)
Lemma cursor_years_length (n : nat) (yyyy : Z) :
  yyyy < last_year -> last_year <= yyyy + Z.of_nat n * p ->
  Z.of_nat (List.length (cursor_years n yyyy p last_year)) =
  (last_year - 1 - yyyy) / p + 1.
Proof.
  revert yyyy. induction n as [|n IH]; intros yyyy Hlt Hn; [cbn in Hn; lia|].
  cbn [cursor_years]. destruct (Z.geb_spec yyyy last_year); [lia|].
  cbn [List.length]. rewrite Nat2Z.inj_succ.
  destruct (Z.lt_ge_cases (yyyy + p) last_year) as [Hnext|Hnext].
  - rewrite IH by lia.
    replace (last_year - 1 - yyyy) with (last_year - 1 - (yyyy + p) + 1 * p)
      by lia.
    rewrite Z.div_add by lia. lia.
  - rewrite cursor_years_past by lia. cbn [List.length].
    rewrite Z.div_small by lia. lia.
Qed.

End CursorYears.

(** ** [make_plan] *)

Lemma make_plan_rows_Forall (P : record -> Prop) (start_year last_year : Z)
    (rows : list row) :
  (forall r c y, In r rows -> py_get r 3 = Ok c ->
                 start_year <= y < last_year -> P (tmplist_of r y)) ->
  forall plan_list,
    Forall P plan_list ->
    Forall P (fst (make_plan_rows rows start_year last_year plan_list)).
Proof.
  induction rows as [|r rows IH]; intros HP plan_list Hpl; [exact Hpl|].
  cbn [make_plan_rows].
  destruct (py_get r 3) as [c|e] eqn:Hc; cbn [bind]; [|exact Hpl].
  destruct (py_int c) as [yyyy|e]; [|exact Hpl].
  assert (Hl : Forall P (plan_after
            (row_loop row_loop_range r yyyy start_year last_year plan_list))).
  { apply row_loop_Forall; [|exact Hpl].
    intros y Hy. apply (HP r c y); [now left|exact Hc|exact Hy]. }
  destruct (exit_by _); try exact Hl;
    (apply IH; [|exact Hl]; intros r' c' y Hin; apply HP; now right).
Qed.

Lemma make_plan_Ok (rows : list row) (start_year last_year : Z)
    (plan_list : list record) :
  make_plan (PyRows rows) start_year last_year = Ok plan_list ->
  fst (make_plan_rows rows start_year last_year []) = plan_list.
Proof.
  unfold make_plan.
  destruct (make_plan_rows rows start_year last_year []) as [pl [[]|e]];
    intros H; inversion H; reflexivity.
Qed.

(** The expansion of a single row with a period of at least 1. *)
Lemma make_plan_periodic (r : row) (c3 c4 : pystr) (Y P start_year last_year : Z) :
  py_get r 3 = Ok c3 -> py_int c3 = Ok Y ->
  py_get r 4 = Ok c4 -> py_int c4 = Ok P -> 1 <= P ->
  make_plan (PyRows [r]) start_year last_year =
  Ok (map (tmplist_of r)
        (filter (fun y => y >=? start_year)
                (cursor_years row_loop_range Y P last_year))).
Proof.
  intros H3 HY H4 HP HP1. unfold make_plan. cbn [make_plan_rows].
  rewrite H3. cbn [bind]. rewrite HY.
  rewrite (row_loop_plan r start_year last_year c4 P H4 HP HP1).
  cbn [app].
  destruct (Z.le_gt_cases last_year (Y + (Z.of_nat row_loop_range - 1) * P))
    as [Hw|Hx].
  - rewrite (row_loop_window r start_year last_year c4 P H4 HP HP1);
      [reflexivity|exact Hw|rewrite row_loop_range_eq; lia].
  - destruct (row_loop_exhausted r start_year last_year c4 P H4 HP HP1
                row_loop_range Y [] Hx) as [-> _].
    reflexivity.
Qed.

(** Reading the period never fails for a row whose period is an integer. *)
Lemma row_loop_no_raise (n : nat) (r : row) (c : pystr) (p : Z)
    (yyyy start_year last_year : Z) (plan_list : list record) (e : exn) :
  py_get r 4 = Ok c -> py_int c = Ok p ->
  exit_by (row_loop n r yyyy start_year last_year plan_list) <> Raised e.
Proof.
  intros Hc Hp. revert yyyy plan_list.
  induction n as [|n IH]; intros yyyy plan_list; [discriminate|].
  cbn [row_loop]. destruct (yyyy >=? last_year); [discriminate|].
  unfold add_planlist. rewrite Hc. cbn [bind]. rewrite Hp. cbn [bind].
  destruct (p <? 1); [discriminate|]. cbn [one_more exit_by]. apply IH.
Qed.

Lemma make_plan_rows_total (rows : list row) (start_year last_year : Z) :
  Forall expandable rows ->
  forall plan_list,
    snd (make_plan_rows rows start_year last_year plan_list) = Ok tt.
Proof.
  induction 1 as [|r rows [(c3 & Y & H3 & HY) (c4 & P & H4 & HP)] _ IH];
    intros plan_list; [reflexivity|].
  cbn [make_plan_rows]. rewrite H3. cbn [bind]. rewrite HY.
  pose proof (fun e => row_loop_no_raise row_loop_range r c4 P Y start_year
                         last_year plan_list e H4 HP) as Hno.
  destruct (exit_by _) as [| | |e]; try apply IH. now destruct (Hno e).
Qed.

Lemma make_plan_total (rows : list row) (start_year last_year : Z) :
  Forall expandable rows ->
  make_plan (PyRows rows) start_year last_year =
  Ok (fst (make_plan_rows rows start_year last_year [])).
Proof.
  intros H. unfold make_plan.
  pose proof (make_plan_rows_total rows start_year last_year H []) as Hs.
  destruct (make_plan_rows rows start_year last_year []) as [pl res].
  cbn in Hs. now rewrite Hs.
Qed.

(** ** [fill_dummydata] *)

Lemma pyval_eqb_eq (a b : pyval) : pyval_eqb a b = true <-> a = b.
Proof.
  destruct a as [x|s], b as [y|t]; cbn; try (split; discriminate).
  - rewrite Z.eqb_eq. split; congruence.
  - unfold pystr_eqb. destruct (list_eq_dec N.eq_dec s t); split;
      congruence.
Qed.

Lemma py_in_In (x : pyval) (l : list pyval) : py_in x l = true <-> In x l.
Proof.
  unfold py_in. rewrite existsb_exists. split.
  - intros (y & Hy & Heq). apply pyval_eqb_eq in Heq. now subst.
  - intros H. exists x. split; [exact H|now apply pyval_eqb_eq].
Qed.

Lemma py_in_ext (x : pyval) (l l' : list pyval) :
  (forall v, In v l <-> In v l') -> py_in x l = py_in x l'.
Proof.
  intros H. apply eq_true_iff_eq. rewrite !py_in_In. apply H.
Qed.

Lemma insert_sorted_In {A} (leb : A -> A -> bool) (x y : A) (l : list A) :
  In y (insert_sorted leb x l) <-> y = x \/ In y l.
Proof.
  induction l as [|z l IH]; cbn.
  - split; intros [H|H]; auto.
  - destruct (leb x z); cbn; [split; intros [H|H]; auto|].
    rewrite IH. tauto.
Qed.

Lemma sort_by_In {A} (leb : A -> A -> bool) (y : A) (l : list A) :
  In y (sort_by leb l) <-> In y l.
Proof.
  induction l as [|x l IH]; cbn; [tauto|].
  rewrite insert_sorted_In, IH. split; intros [H|H]; auto.
Qed.

Lemma ints_of_In (z : Z) (l : list pyval) : In z (ints_of l) <-> In (PInt z) l.
Proof.
  unfold ints_of. rewrite in_flat_map. split.
  - intros ([y|s] & Hin & Hz); cbn in Hz; [|tauto].
    destruct Hz as [->|[]]. exact Hin.
  - intros H. exists (PInt z). split; [exact H|now left].
Qed.

Lemma strs_of_In (s : pystr) (l : list pyval) : In s (strs_of l) <-> In (PStr s) l.
Proof.
  unfold strs_of. rewrite in_flat_map. split.
  - intros ([y|t] & Hin & Hs); cbn in Hs; [tauto|].
    destruct Hs as [->|[]]. exact Hin.
  - intros H. exists (PStr s). split; [exact H|now left].
Qed.

(** The sorted list of distinct values has the members of the list. *)
Lemma py_sorted_set_In (l unique : list pyval) :
  py_sorted_set l = Ok unique -> forall v, In v unique <-> In v l.
Proof.
  unfold py_sorted_set.
  destruct (nodup (list_eq_dec N.eq_dec) (strs_of l)) as [|s ss] eqn:Hss.
  - assert (Hnostr : forall s, ~ In (PStr s) l).
    { intros s Hs. apply strs_of_In in Hs.
      apply (nodup_In (list_eq_dec N.eq_dec)) in Hs. now rewrite Hss in Hs. }
    intros H v. replace unique with (map PInt (sort_by Z.leb (nodup Z.eq_dec (ints_of l))))
      by (destruct (nodup Z.eq_dec (ints_of l)); now inversion H).
    rewrite in_map_iff. split.
    + intros (z & <- & Hz).
      apply ints_of_In, (nodup_In Z.eq_dec), (sort_by_In Z.leb). exact Hz.
    + intros Hv. destruct v as [z|t]; [|now destruct (Hnostr t)].
      exists z. split; [reflexivity|].
      apply sort_by_In, (nodup_In Z.eq_dec), ints_of_In. exact Hv.
  - destruct (nodup Z.eq_dec (ints_of l)) as [|z zs] eqn:Hzs; [|discriminate].
    assert (Hnoint : forall z, ~ In (PInt z) l).
    { intros z Hz. apply ints_of_In in Hz.
      apply (nodup_In Z.eq_dec) in Hz. now rewrite Hzs in Hz. }
    intros H v. rewrite <- Hss in H. injection H as <-.
    rewrite in_map_iff. split.
    + intros (t & <- & Ht). apply strs_of_In.
      apply (nodup_In (list_eq_dec N.eq_dec)).
      apply (sort_by_In pystr_leb). exact Ht.
    + intros Hv. destruct v as [y|t]; [now destruct (Hnoint y)|].
      exists t. split; [reflexivity|].
      apply sort_by_In, nodup_In, strs_of_In. exact Hv.
Qed.

(** A list of [int] alone is always sorted without error. *)
Lemma py_sorted_set_ints (zs : list Z) :
  exists unique, py_sorted_set (map PInt zs) = Ok unique.
Proof.
  unfold py_sorted_set.
  replace (strs_of (map PInt zs)) with (@nil pystr)
    by (induction zs; [reflexivity|assumption]).
  cbn [nodup]. destruct (nodup Z.eq_dec _); eauto.
Qed.

Lemma year_list_of_Ok (plan_list : list record) (ys : list pyval) :
  year_list_of plan_list = Ok ys ->
  Forall2 (fun rec v => nth_error rec 1 = Some v) plan_list ys.
Proof.
  revert ys. induction plan_list as [|rec plan_list IH]; intros ys H.
  - inversion H. constructor.
  - cbn [year_list_of] in H.
    apply bind_Ok in H as (y & Hy & H). apply bind_Ok in H as (ys' & Hys & H).
    inversion H. constructor; [now apply py_get_Ok|now apply IH].
Qed.

Lemma year_list_of_ints (plan_list : list record) :
  Forall (fun rec => exists y, year_of rec = Some y) plan_list ->
  exists zs, year_list_of plan_list = Ok (map PInt zs).
Proof.
  induction 1 as [|rec plan_list [y Hy] _ (zs & IH)]; [now exists []|].
  exists (y :: zs). cbn [year_list_of]. rewrite IH.
  unfold year_of in Hy. unfold py_get.
  destruct (nth_error rec 1) as [[z|s]|]; try discriminate.
  inversion Hy. reflexivity.
Qed.

Lemma fill_loop_eq (years : list Z) (unique : list pyval) (plan_list : list record) :
  fill_loop years unique plan_list =
  plan_list ++
  map dummy_data (filter (fun y => negb (py_in (PInt y) unique)) years).
Proof.
  revert plan_list. induction years as [|y years IH]; intros plan_list.
  - cbn. now rewrite app_nil_r.
  - cbn [fill_loop filter]. destruct (py_in (PInt y) unique); cbn [negb].
    + apply IH.
    + rewrite IH. cbn [map]. now rewrite <- app_assoc.
Qed.

Lemma missing_years_In (ys : list pyval) (start_year last_year y : Z) :
  In y (missing_years ys start_year last_year) <->
  start_year <= y < last_year /\ ~ In (PInt y) ys.
Proof.
  unfold missing_years. rewrite filter_In, py_range_In, negb_true_iff.
  rewrite <- py_in_In. destruct (py_in (PInt y) ys); intuition congruence.
Qed.

(** [fill_dummydata] returns the list it was given followed by one dummy
    record per missing year, in ascending order. *)
Lemma fill_dummydata_Ok (plan_list full : list record) (start_year last_year : Z) :
  fill_dummydata plan_list start_year last_year = Ok full ->
  exists ys,
    year_list_of plan_list = Ok ys /\
    full = plan_list ++ map dummy_data (missing_years ys start_year last_year).
Proof.
  unfold fill_dummydata. intros H.
  apply bind_Ok in H as (ys & Hys & H). apply bind_Ok in H as (unique & Hu & H).
  inversion H as [Hfull]. exists ys. split; [exact Hys|].
  rewrite fill_loop_eq. f_equal. f_equal. unfold missing_years.
  apply filter_ext. intros y. f_equal. apply py_in_ext.
  now apply py_sorted_set_In.
Qed.

Lemma fill_dummydata_total (plan_list : list record) (start_year last_year : Z) :
  Forall (fun rec => exists y, year_of rec = Some y) plan_list ->
  exists full, fill_dummydata plan_list start_year last_year = Ok full.
Proof.
  intros H. destruct (year_list_of_ints plan_list H) as (zs & Hzs).
  destruct (py_sorted_set_ints zs) as (unique & Hu).
  unfold fill_dummydata. rewrite Hzs. cbn [bind]. rewrite Hu. cbn [bind].
  eauto.
Qed.

Lemma filter_all {A} (f : A -> bool) (l : list A) :
  (forall x, In x l -> f x = true) -> filter f l = l.
Proof.
  induction l as [|x l IH]; intros H; [reflexivity|].
  cbn. rewrite (H x (or_introl eq_refl)). f_equal. apply IH.
  intros y Hy. apply H. now right.
Qed.

Lemma filter_none {A} (f : A -> bool) (l : list A) :
  (forall x, In x l -> f x = false) -> filter f l = [].
Proof.
  induction l as [|x l IH]; intros H; [reflexivity|].
  cbn. rewrite (H x (or_introl eq_refl)). apply IH.
  intros y Hy. apply H. now right.
Qed.

(** * The claims *)

(** ** Expansion of a periodic item *)

(** C1 (as amended).  For a row whose first year reads as [Y] and whose
    period reads as [P > 0], in a window with [start_year < last_year] of
    at most 100 years, and provided the row has at most 99 occurrence years
    below [last_year] (that is [last_year <= Y + 99 * P]), [make_plan]
    returns exactly one record per year of [{Y, Y+P, Y+2P, ...}] inside
    [[start_year, last_year)], each built from the row, and no other; there
    are [(last_year - 1 - Y) / P + 1] of them when [start_year <= Y <
    last_year] and none when [Y >= last_year]. *)
Theorem make_plan_periodic_item (r : row) (c3 c4 : pystr)
    (Y P start_year last_year : Z) :
  py_get r 3 = Ok c3 -> py_int c3 = Ok Y ->
  py_get r 4 = Ok c4 -> py_int c4 = Ok P -> 0 < P ->
  start_year < last_year -> last_year - start_year <= 100 ->
  last_year <= Y + 99 * P ->
  exists years,
    make_plan (PyRows [r]) start_year last_year = Ok (map (tmplist_of r) years) /\
    map year_of (map (tmplist_of r) years) = map Some years /\
    NoDup years /\
    (forall y, In y years <->
               start_year <= y < last_year /\ exists k, 0 <= k /\ y = Y + k * P) /\
    (start_year <= Y < last_year ->
     Z.of_nat (List.length years) = (last_year - 1 - Y) / P + 1) /\
    (last_year <= Y -> years = []).
Proof.
  intros H3 HY H4 HP HP0 _ _ Hcap.
  exists (filter (fun y => y >=? start_year)
            (cursor_years row_loop_range Y P last_year)).
  split; [apply (make_plan_periodic r c3 c4); auto; lia|].
  split.
  { rewrite map_map. apply map_ext. intros y. apply (tmplist_of_year r c3 y H3). }
  split; [apply NoDup_filter, cursor_years_NoDup; lia|].
  split; [|split].
  - intros y. rewrite filter_In, cursor_years_In by lia.
    rewrite row_loop_range_eq. split.
    + intros ((Hlt & k & Hk & ->) & Hge). apply Z.geb_le in Hge.
      split; [lia|]. exists k. lia.
    + intros (Hy & k & Hk & ->). split; [|apply Z.geb_le; lia].
      split; [lia|]. exists k. split; [nia|reflexivity].
  - intros HYw. rewrite filter_all.
    + apply cursor_years_length; [lia|lia|]. rewrite row_loop_range_eq. lia.
    + intros y Hy. apply cursor_years_In in Hy as (_ & k & Hk & ->); [|lia].
      apply Z.geb_le. nia.
  - intros HYe. now rewrite cursor_years_past.
Qed.

Lemma make_plan_periodic_item_witness :
  exists years,
    make_plan (PyRows [roof_work "2025" "10"]) 2025 2046 =
    Ok (map (tmplist_of (roof_work "2025" "10")) years) /\
    (forall y, In y years <->
               2025 <= y < 2046 /\ exists k, 0 <= k /\ y = 2025 + k * 10) /\
    Z.of_nat (List.length years) = 3.
Proof.
  destruct (make_plan_periodic_item (roof_work "2025" "10") (u "2025") (u "10")
              2025 10 2025 2046)
    as (years & Hplan & _ & _ & Hin & Hlen & _);
    try reflexivity; try lia.
  exists years. split; [exact Hplan|]. split; [exact Hin|].
  rewrite Hlen by lia. reflexivity.
Defined.

(** C1 as stated fails: a row first due in 1900 and repeated every year
    gives no record at all for the window [[2000, 2100)], although every
    year of the window is one of its occurrence years. *)
Lemma make_plan_early_item_lost :
  py_int (u "1900") = Ok 1900 /\ py_int (u "1") = Ok 1 /\
  2000 < 2100 /\ 2100 - 2000 <= 100 /\
  make_plan (PyRows [roof_work "1900" "1"]) 2000 2100 = Ok [] /\
  ~ (forall y, (2000 <= y < 2100 /\ exists k, 0 <= k /\ y = 1900 + k * 1) ->
       exists plan_list rec,
         make_plan (PyRows [roof_work "1900" "1"]) 2000 2100 = Ok plan_list /\
         In rec plan_list /\ year_of rec = Some y).
Proof.
  assert (H : make_plan (PyRows [roof_work "1900" "1"]) 2000 2100 = Ok [])
    by (vm_compute; reflexivity).
  repeat split; try reflexivity; try lia; try exact H.
  intros Hall. destruct (Hall 2000) as (plan_list & rec & Hp & Hin & _).
  - split; [lia|]. exists 100. lia.
  - rewrite H in Hp. inversion Hp; subst. destruct Hin.
Qed.

(** The window [[2000, 2100)] with a yearly work first due in 2000: the
    99 rounds of the loop end at 2098 and the year 2099 gets no record. *)
Example make_plan_hundredth_year :
  option_map (@List.length record)
    (match make_plan (PyRows [roof_work "2000" "1"]) 2000 2100 with
     | Ok plan_list => Some plan_list
     | Raise _ => None
     end) = Some 99%nat /\
  exit_by (row_loop row_loop_range (roof_work "2000" "1") 2000 2000 2100 [])
  = RangeExhausted.
Proof. split; vm_compute; reflexivity. Qed.

(** ** The cap on the rounds of the loop *)

(** C2 (as amended).  The loop over one row makes at most 100 rounds.  For
    a row whose period reads as [P], in a window of at most 100 years, the
    loop leaves by the window test or by the one-time break, and not
    because the range ran out, whenever [P <= 0] or the row has fewer than
    99 occurrence years below [last_year] ([last_year <= Y + 98 * P]). *)
Theorem row_loop_leaves_before_cap :
  (forall r Y start_year last_year plan_list,
     (iterations (row_loop row_loop_range r Y start_year last_year plan_list)
      <= 100)%nat) /\
  (forall r c4 P Y start_year last_year plan_list,
     py_get r 4 = Ok c4 -> py_int c4 = Ok P ->
     start_year < last_year -> last_year - start_year <= 100 ->
     P <= 0 \/ last_year <= Y + 98 * P ->
     let l := row_loop row_loop_range r Y start_year last_year plan_list in
     exit_by l = WindowBreak \/ exit_by l = OneTimeBreak).
Proof.
  split.
  - intros r Y start_year last_year plan_list.
    pose proof (row_loop_iterations r start_year last_year row_loop_range Y
                  plan_list) as H.
    rewrite row_loop_range_eq in *. lia.
  - intros r c4 P Y start_year last_year plan_list H4 HP _ _ Hcase l. subst l.
    destruct (Z.lt_ge_cases P 1) as [Hone|Hper].
    + rewrite row_loop_range_eq.
      destruct (Z.lt_ge_cases Y last_year) as [Hlt|Hge].
      * right. now rewrite (row_loop_one_time r start_year last_year 98 Y P c4).
      * left. cbn [row_loop].
        destruct (Z.geb_spec Y last_year); [reflexivity|lia].
    + left. apply (row_loop_window r start_year last_year c4 P); auto.
      * rewrite row_loop_range_eq. change (Z.of_nat 99 - 1) with 98. lia.
      * rewrite row_loop_range_eq. lia.
Qed.

Lemma row_loop_leaves_before_cap_witness :
  exit_by (row_loop row_loop_range (roof_work "2025" "10") 2025 2025 2046 [])
  = WindowBreak \/
  exit_by (row_loop row_loop_range (roof_work "2025" "10") 2025 2025 2046 [])
  = OneTimeBreak.
Proof.
  apply (proj2 row_loop_leaves_before_cap (roof_work "2025" "10") (u "10") 10);
    try reflexivity; lia.
Defined.

(** C2 as stated fails: in the window [[2000, 2100)] a yearly work first
    due in 1990 uses up the 99 rounds while its cursor is still at 2089. *)
Lemma row_loop_cap_reached :
  2000 < 2100 /\ 2100 - 2000 <= 100 /\
  py_int (u "1990") = Ok 1990 /\ py_int (u "1") = Ok 1 /\
  exit_by (row_loop row_loop_range (roof_work "1990" "1") 1990 2000 2100 [])
  = RangeExhausted /\
  iterations (row_loop row_loop_range (roof_work "1990" "1") 1990 2000 2100 [])
  = 99%nat /\
  ~ (exit_by (row_loop row_loop_range (roof_work "1990" "1") 1990 2000 2100 [])
     = WindowBreak \/
     exit_by (row_loop row_loop_range (roof_work "1990" "1") 1990 2000 2100 [])
     = OneTimeBreak).
Proof.
  assert (H : exit_by (row_loop row_loop_range (roof_work "1990" "1")
                         1990 2000 2100 []) = RangeExhausted)
    by (vm_compute; reflexivity).
  repeat split; try lia; try (vm_compute; reflexivity).
  rewrite H. intros [Hw|Ho]; discriminate.
Qed.

(** ** Years before the window *)

Lemma make_plan_rows_years (rows : list row) (start_year last_year : Z) :
  Forall (fun rec => exists y, year_of rec = Some y /\ start_year <= y < last_year)
         (fst (make_plan_rows rows start_year last_year [])).
Proof.
  apply make_plan_rows_Forall; [|constructor].
  intros r c y _ Hc Hy. exists y. split; [|exact Hy].
  apply (tmplist_of_year r c y Hc).
Qed.

(** C8.  No record [make_plan] appends has a year before [start_year]:
    this holds for the list as the loops leave it, whether [make_plan]
    returns or raises, and [add_planlist] leaves the list alone when the
    cursor is before [start_year]. *)
Theorem make_plan_no_year_before_start (rows : list row)
    (start_year last_year : Z) :
  Forall (fun rec => exists y, year_of rec = Some y /\ start_year <= y)
         (fst (make_plan_rows rows start_year last_year [])) /\
  (forall plan_list,
     make_plan (PyRows rows) start_year last_year = Ok plan_list ->
     Forall (fun rec => exists y, year_of rec = Some y /\ start_year <= y)
            plan_list) /\
  (forall r yyyy plan_list,
     yyyy < start_year ->
     fst (add_planlist r yyyy start_year plan_list) = plan_list).
Proof.
  assert (H : Forall (fun rec => exists y, year_of rec = Some y /\ start_year <= y)
                (fst (make_plan_rows rows start_year last_year []))).
  { eapply Forall_impl; [|apply make_plan_rows_years].
    intros rec (y & Hy & Hw). exists y. split; [exact Hy|lia]. }
  split; [exact H|]. split.
  - intros plan_list Hp. apply make_plan_Ok in Hp. now rewrite <- Hp.
  - intros r yyyy plan_list Hy. rewrite add_planlist_fst.
    destruct (Z.geb_spec yyyy start_year); [lia|reflexivity].
Qed.

(** ** The fixed fields *)

Lemma dummy_data_fixed (y : Z) : fixed_fields (dummy_data y).
Proof. repeat split. Qed.

Lemma dummy_data_year (y : Z) : year_of (dummy_data y) = Some y.
Proof. reflexivity. Qed.

(** C7.  When every input row has 7 fields, every record of the list the
    pipeline hands to [save_csv], expanded or dummy, has [1] at index 4,
    the unit token at index 5 and [0] at index 7. *)
Theorem pipeline_fixed_fields (rows : list row) (start_year last_year : Z)
    (plan_list full_plan_list : list record) :
  Forall (fun r => List.length r = 7%nat) rows ->
  make_plan (PyRows rows) start_year last_year = Ok plan_list ->
  fill_dummydata plan_list start_year last_year = Ok full_plan_list ->
  Forall fixed_fields full_plan_list.
Proof.
  intros Hrows Hplan Hfull.
  apply fill_dummydata_Ok in Hfull as (ys & _ & ->).
  apply Forall_app. split.
  - apply make_plan_Ok in Hplan. subst plan_list.
    apply make_plan_rows_Forall; [|constructor].
    intros r c y Hin _ _. rewrite Forall_forall in Hrows.
    destruct (tmplist_of_seven r y (Hrows r Hin))
      as (ver & kind & name & amount & remark & ->).
    repeat split.
  - apply Forall_forall. intros rec Hrec.
    apply in_map_iff in Hrec as (y & <- & _). apply dummy_data_fixed.
Qed.

Lemma pipeline_fixed_fields_witness :
  exists plan_list full_plan_list,
    make_plan (PyRows [roof_work "2025" "10"]) 2025 2046 = Ok plan_list /\
    fill_dummydata plan_list 2025 2046 = Ok full_plan_list /\
    List.length plan_list = 3%nat /\
    List.length full_plan_list = 21%nat /\
    Forall fixed_fields full_plan_list.
Proof.
  eexists. eexists.
  split; [vm_compute; reflexivity|].
  split; [vm_compute; reflexivity|].
  split; [reflexivity|]. split; [reflexivity|].
  eapply (pipeline_fixed_fields [roof_work "2025" "10"] 2025 2046).
  - repeat constructor.
  - vm_compute. reflexivity.
  - vm_compute. reflexivity.
Defined.

(** ** Coverage of the window and the second pass *)

Lemma Forall2_In_l {A B} (R : A -> B -> Prop) (l : list A) (l' : list B) (x : A) :
  Forall2 R l l' -> In x l -> exists v, In v l' /\ R x v.
Proof.
  induction 1 as [|a b l l' Hab _ IH]; intros Hin; [destruct Hin|].
  destruct Hin as [->|Hin]; [exists b; split; [now left|exact Hab]|].
  destruct (IH Hin) as (v & Hv & HR). exists v. split; [now right|exact HR].
Qed.

Lemma Forall2_In_r {A B} (R : A -> B -> Prop) (l : list A) (l' : list B) (v : B) :
  Forall2 R l l' -> In v l' -> exists x, In x l /\ R x v.
Proof.
  induction 1 as [|a b l l' Hab _ IH]; intros Hin; [destruct Hin|].
  destruct Hin as [->|Hin]; [exists a; split; [now left|exact Hab]|].
  destruct (IH Hin) as (x & Hx & HR). exists x. split; [now right|exact HR].
Qed.

Lemma year_of_nth (rec : record) (y : Z) :
  year_of rec = Some y <-> nth_error rec 1 = Some (PInt y).
Proof.
  unfold year_of. destruct (nth_error rec 1) as [[z|s]|]; split; intros H;
    inversion H; reflexivity.
Qed.

(** After [fill_dummydata] every year of the window is the year of a
    record. *)
Lemma fill_dummydata_covers (plan_list full : list record) (start_year last_year : Z) :
  fill_dummydata plan_list start_year last_year = Ok full ->
  forall y, start_year <= y < last_year ->
            exists rec, In rec full /\ year_of rec = Some y.
Proof.
  intros H y Hy. apply fill_dummydata_Ok in H as (ys & Hys & ->).
  destruct (py_in (PInt y) ys) eqn:Hin.
  - apply py_in_In in Hin.
    destruct (Forall2_In_r _ _ _ _ (year_list_of_Ok _ _ Hys) Hin)
      as (rec & Hrec & Hnth).
    exists rec. split; [apply in_or_app; now left|now apply year_of_nth].
  - exists (dummy_data y). split; [|apply dummy_data_year].
    apply in_or_app. right. apply in_map. apply missing_years_In.
    split; [exact Hy|]. rewrite <- py_in_In, Hin. discriminate.
Qed.

(** A list that already covers the window is returned as it is. *)
Lemma fill_dummydata_covered (plan_list full : list record) (start_year last_year : Z) :
  fill_dummydata plan_list start_year last_year = Ok full ->
  (forall y, start_year <= y < last_year ->
             exists rec, In rec plan_list /\ year_of rec = Some y) ->
  full = plan_list.
Proof.
  intros H Hcov. apply fill_dummydata_Ok in H as (ys & Hys & ->).
  unfold missing_years. rewrite filter_none; [cbn; apply app_nil_r|].
  intros y Hy. apply py_range_In in Hy.
  destruct (Hcov y Hy) as (rec & Hrec & Hyear). apply year_of_nth in Hyear.
  destruct (Forall2_In_l _ _ _ _ (year_list_of_Ok _ _ Hys) Hrec)
    as (v & Hv & Hnth).
  rewrite Hyear in Hnth. inversion Hnth; subst v.
  apply negb_false_iff, py_in_In. exact Hv.
Qed.

Lemma fill_dummydata_int_years (plan_list full : list record) (start_year last_year : Z) :
  Forall (fun rec => exists y, year_of rec = Some y) plan_list ->
  fill_dummydata plan_list start_year last_year = Ok full ->
  Forall (fun rec => exists y, year_of rec = Some y) full.
Proof.
  intros Hint H. apply fill_dummydata_Ok in H as (ys & _ & ->).
  apply Forall_app. split; [exact Hint|].
  apply Forall_forall. intros rec Hrec.
  apply in_map_iff in Hrec as (y & <- & _). exists y. apply dummy_data_year.
Qed.

(** The returned list has a record for each year of the window at least. *)
Lemma fill_dummydata_length (plan_list full : list record) (start_year last_year : Z) :
  fill_dummydata plan_list start_year last_year = Ok full ->
  last_year - start_year <= Z.of_nat (List.length full).
Proof.
  intros H. apply fill_dummydata_Ok in H as (ys & Hys & ->).
  rewrite length_app, length_map. unfold missing_years.
  set (f := fun y => py_in (PInt y) ys).
  pose proof (filter_length f (py_range start_year last_year)) as Hsplit.
  rewrite py_range_length in Hsplit.
  assert (Hpresent : (List.length (filter f (py_range start_year last_year))
                      <= List.length plan_list)%nat).
  { pose proof (Forall2_length (year_list_of_Ok _ _ Hys)) as Hlen.
    unfold record in *. rewrite Hlen, <- (length_map PInt).
    apply NoDup_incl_length.
    - apply Injective_map_NoDup; [intros a b Hab; now inversion Hab|].
      apply NoDup_filter, py_range_NoDup.
    - intros v Hv. apply in_map_iff in Hv as (y & <- & Hy).
      apply filter_In in Hy as (_ & Hy). now apply py_in_In. }
  subst f. cbv beta in *. unfold record in *. lia.
Qed.

(** C3.  For a window with [start_year < last_year] of at most 100 years
    and well-formed input items, [make_plan] and then [fill_dummydata]
    return, and every year of the window is the year field of a record of
    the final list. *)
Theorem pipeline_covers_window (rows : list row) (start_year last_year : Z) :
  Forall well_formed rows ->
  start_year < last_year -> last_year - start_year <= 100 ->
  exists plan_list full_plan_list,
    make_plan (PyRows rows) start_year last_year = Ok plan_list /\
    fill_dummydata plan_list start_year last_year = Ok full_plan_list /\
    forall y, start_year <= y < last_year ->
              exists rec, In rec full_plan_list /\
                          nth_error rec 1 = Some (PInt y).
Proof.
  intros Hrows _ _.
  assert (Hexp : Forall expandable rows)
    by (eapply Forall_impl; [|exact Hrows]; now intros r [_ H]).
  pose proof (make_plan_total rows start_year last_year Hexp) as Hplan.
  destruct (fill_dummydata_total
              (fst (make_plan_rows rows start_year last_year []))
              start_year last_year) as (full & Hfull).
  { eapply Forall_impl; [|apply make_plan_rows_years].
    intros rec (y & Hy & _). now exists y. }
  eexists. exists full. split; [exact Hplan|]. split; [exact Hfull|].
  intros y Hy.
  destruct (fill_dummydata_covers _ _ _ _ Hfull y Hy) as (rec & Hrec & Hyear).
  exists rec. split; [exact Hrec|now apply year_of_nth].
Qed.

Lemma pipeline_covers_window_witness :
  exists plan_list full_plan_list,
    make_plan (PyRows [roof_work "2025" "10"; roof_work "2019" "0"]) 2025 2046
    = Ok plan_list /\
    fill_dummydata plan_list 2025 2046 = Ok full_plan_list /\
    forall y, 2025 <= y < 2046 ->
              exists rec, In rec full_plan_list /\
                          nth_error rec 1 = Some (PInt y).
Proof.
  apply (pipeline_covers_window
           [roof_work "2025" "10"; roof_work "2019" "0"] 2025 2046);
    [|lia|lia].
  repeat constructor.
  - exists (u "2025"), 2025. now split.
  - exists (u "10"), 10. now split.
  - exists (u "2019"), 2019. now split.
  - exists (u "0"), 0. now split.
Defined.

(** C6.  Running [fill_dummydata] on its own result returns that result
    unchanged, so the second run appends no further dummy record: for a
    list of records whose year field is an [int], and every window, both
    runs return and return the same list; and for any list, whenever both
    runs return, the second returns the list of the first. *)
Theorem fill_dummydata_idempotent :
  (forall plan_list start_year last_year,
     Forall (fun rec => exists y, year_of rec = Some y) plan_list ->
     exists full,
       fill_dummydata plan_list start_year last_year = Ok full /\
       fill_dummydata full start_year last_year = Ok full) /\
  (forall plan_list start_year last_year full again,
     fill_dummydata plan_list start_year last_year = Ok full ->
     fill_dummydata full start_year last_year = Ok again ->
     again = full).
Proof.
  assert (Hsame : forall plan_list start_year last_year full again,
             fill_dummydata plan_list start_year last_year = Ok full ->
             fill_dummydata full start_year last_year = Ok again ->
             again = full).
  { intros plan_list start_year last_year full again Hfull Hagain.
    apply (fill_dummydata_covered full again start_year last_year Hagain).
    apply (fill_dummydata_covers plan_list full start_year last_year Hfull). }
  split; [|exact Hsame].
  intros plan_list start_year last_year Hint.
  destruct (fill_dummydata_total plan_list start_year last_year Hint)
    as (full & Hfull).
  exists full. split; [exact Hfull|].
  destruct (fill_dummydata_total full start_year last_year) as (again & Hagain).
  { now apply (fill_dummydata_int_years plan_list full start_year last_year). }
  rewrite Hagain. f_equal. now apply (Hsame plan_list start_year last_year).
Qed.

Lemma fill_dummydata_idempotent_witness :
  exists full,
    fill_dummydata [tmplist_of (roof_work "2025" "10") 2026] 2025 2028 = Ok full /\
    fill_dummydata full 2025 2028 = Ok full /\
    List.length full = 3%nat.
Proof.
  destruct (proj1 fill_dummydata_idempotent
              [tmplist_of (roof_work "2025" "10") 2026] 2025 2028)
    as (full & Hfull & Hagain).
  - repeat constructor. exists 2026. reflexivity.
  - exists full. split; [exact Hfull|]. split; [exact Hagain|].
    vm_compute in Hfull. injection Hfull as <-. reflexivity.
Defined.

(** The year fields of a list read back from a csv file are [str]: the
    first run adds dummies with [int] years, and the second run then fails
    to sort the years. *)
Example fill_dummydata_str_years :
  fill_dummydata [[PStr (u "1"); PStr (u "2025")]] 2025 2026 =
  Ok [[PStr (u "1"); PStr (u "2025")]; dummy_data 2025] /\
  fill_dummydata [[PStr (u "1"); PStr (u "2025")]; dummy_data 2025] 2025 2026 =
  Raise TypeError.
Proof. split; reflexivity. Qed.

(** ** Reading the input *)

(** A single message was printed, and it goes where the goal says. *)
Ltac one_message := cbn; intros [<-|[]]; reflexivity.

Lemma read_rows_stderr (lines : list row) (ending : reader_end) :
  forall line_no rows m,
    In m (fst (read_rows line_no lines ending rows)) -> stream_of m = Stderr.
Proof.
  induction lines as [|r lines IH]; intros line_no rows m; cbn [read_rows].
  - destruct ending; [cbn; intros []|one_message..].
  - destruct (row_is_blank r); [apply IH|].
    destruct (py_get r 0) as [version|e]; [|one_message].
    destruct (strip_is_empty version); [one_message|].
    apply IH.
Qed.

Lemma read_csv_stderr (f : file_state) (m : message) :
  In m (fst (read_csv f)) -> stream_of m = Stderr.
Proof.
  destruct f as [| |lines ending]; cbn [read_csv];
    [one_message..|apply read_rows_stderr].
Qed.

(** One data line with a blank version makes the whole read fail. *)
Lemma read_rows_blank_version (lines : list row) (ending : reader_end) :
  existsb version_is_blank lines = true ->
  forall line_no rows, snd (read_rows line_no lines ending rows) = PyFalse.
Proof.
  induction lines as [|r lines IH]; intros Hbad line_no rows;
    [discriminate|].
  cbn [existsb] in Hbad. cbn [read_rows]. unfold version_is_blank in Hbad at 1.
  destruct (row_is_blank r); cbn [negb andb orb] in Hbad; [now apply IH|].
  destruct r as [|version r]; cbn [orb] in Hbad; [reflexivity|].
  cbn [py_get nth_error].
  destruct (strip_is_empty version); [reflexivity|now apply IH].
Qed.

(** A [csv.Error] at the end of the lines makes the read fail as well. *)
Lemma read_rows_csv_error (lines : list row) :
  forall line_no rows, snd (read_rows line_no lines CsvError rows) = PyFalse.
Proof.
  induction lines as [|r lines IH]; intros line_no rows; [reflexivity|].
  cbn [read_rows]. destruct (row_is_blank r); [apply IH|].
  destruct (py_get r 0) as [version|e]; [|reflexivity].
  destruct (strip_is_empty version); [reflexivity|apply IH].
Qed.

(** C5.  If a data line after the header is not blank and has an empty or
    white-space-only first field, [read_csv] returns [False] and no list of
    rows, whatever the other lines are. *)
Theorem read_csv_blank_version (header : row) (lines : list row)
    (ending : reader_end) :
  existsb version_is_blank lines = true ->
  snd (read_csv (Opens (header :: lines) ending)) = PyFalse.
Proof.
  intros Hbad. cbn [read_csv tl]. now apply read_rows_blank_version.
Qed.

Lemma read_csv_blank_version_witness :
  snd (read_csv (Opens [header_line; roof_work "2025" "10"; [];
                        [u "  "; u "wall"; u "paint"; u "2030"; u "12"; u "1"; u ""];
                        roof_work "2027" "5"] EndOfFile)) = PyFalse /\
  snd (read_csv (Opens [header_line; roof_work "2025" "10"; [];
                        roof_work "2027" "5"] EndOfFile))
  = PyRows [roof_work "2025" "10"; roof_work "2027" "5"].
Proof.
  split; [|reflexivity].
  apply (read_csv_blank_version header_line
           [roof_work "2025" "10"; [];
            [u "  "; u "wall"; u "paint"; u "2030"; u "12"; u "1"; u ""];
            roof_work "2027" "5"] EndOfFile).
  reflexivity.
Defined.

(** ** The driver *)

(** C4 (as amended).  When [last_year <= start_year] or the window is
    longer than 100 years, [main] prints one message and calls
    [sys.exit()] without an argument, so the exit status is 0; this
    happens before the file is read, before any expansion or filling, and
    nothing is written. *)
Theorem main_rejects_window (a : args) (writable : bool) :
  arg_last_year a <= arg_start_year a \/
  arg_last_year a - arg_start_year a > 100 ->
  (printed (main a writable) = [MsgReviewYears] \/
   printed (main a writable) = [MsgSpanLimit 100]) /\
  ended (main a writable) = SysExit None /\
  exit_status (ended (main a writable)) = 0 /\
  written (main a writable) = None /\
  (forall f writable',
     main (mk_args f (arg_start_year a) (arg_last_year a)) writable' =
     main a writable).
Proof.
  intros Hbad. unfold main. cbn [arg_start_year arg_last_year].
  destruct (Z.leb_spec (arg_last_year a) (arg_start_year a)) as [Hle|Hgt].
  - repeat split; auto.
  - destruct (Z.gtb_spec (arg_last_year a - arg_start_year a) limmit_num)
      as [Hspan|Hspan]; [repeat split; auto|].
    unfold limmit_num in Hspan. lia.
Qed.

Lemma main_rejects_window_witness :
  written (main (mk_args (Opens [header_line; roof_work "2025" "10"] EndOfFile)
                   1900 2025) true) = None /\
  printed (main (mk_args (Opens [header_line; roof_work "2025" "10"] EndOfFile)
                   1900 2025) true) = [MsgSpanLimit 100].
Proof.
  destruct (main_rejects_window
              (mk_args (Opens [header_line; roof_work "2025" "10"] EndOfFile)
                 1900 2025) true) as (_ & _ & _ & Hw & _).
  - right. cbn. lia.
  - split; [exact Hw|reflexivity].
Defined.

(** C4 as stated fails: with [start_year = 2030] and [last_year = 2025]
    the run ends with exit status 0, not with a non-zero one. *)
Lemma main_bad_window_status_zero :
  2025 <= 2030 /\
  ended (main (mk_args (Opens [header_line; roof_work "2025" "10"] EndOfFile)
                 2030 2025) true) = SysExit None /\
  ~ (exit_status
       (ended (main (mk_args (Opens [header_line; roof_work "2025" "10"] EndOfFile)
                       2030 2025) true)) <> 0).
Proof.
  split; [lia|]. split; [reflexivity|]. intros H. apply H. reflexivity.
Qed.

(** C9.  [read_csv] returns [False] for a path that is not a file, for a
    data line with a blank version and for a [csv.Error]; in a valid window
    [main] hands that value to [make_plan], whose loop raises a
    [TypeError] nobody catches: the run ends with it, having printed only
    the message of [read_csv] on standard error, and writes nothing. *)
Theorem main_read_failure :
  snd (read_csv NotAFile) = PyFalse /\
  (forall lines, snd (read_csv (Opens lines CsvError)) = PyFalse) /\
  (forall header lines ending,
     existsb version_is_blank lines = true ->
     snd (read_csv (Opens (header :: lines) ending)) = PyFalse) /\
  (forall start_year last_year,
     make_plan PyFalse start_year last_year = Raise TypeError) /\
  (forall a writable,
     arg_start_year a < arg_last_year a ->
     arg_last_year a - arg_start_year a <= 100 ->
     snd (read_csv (arg_file a)) = PyFalse ->
     main a writable =
     mk_outcome (fst (read_csv (arg_file a))) (Uncaught TypeError) None /\
     exit_status (ended (main a writable)) = 1 /\
     (forall m, In m (printed (main a writable)) -> stream_of m = Stderr)).
Proof.
  split; [reflexivity|]. split; [intros lines; apply read_rows_csv_error|].
  split; [intros header lines ending H; now apply read_rows_blank_version|].
  split; [reflexivity|].
  intros a writable Hlt Hspan Hfalse.
  assert (Hmain : main a writable =
                  mk_outcome (fst (read_csv (arg_file a))) (Uncaught TypeError) None).
  { unfold main.
    destruct (Z.leb_spec (arg_last_year a) (arg_start_year a)); [lia|].
    destruct (Z.gtb_spec (arg_last_year a - arg_start_year a) limmit_num)
      as [Hgt|_]; [unfold limmit_num in Hgt; lia|].
    destruct (read_csv (arg_file a)) as [msgs data_list].
    cbn [snd] in Hfalse. subst data_list. reflexivity. }
  rewrite Hmain. cbn [ended printed exit_status].
  split; [reflexivity|]. split; [reflexivity|].
  intros m. apply read_csv_stderr.
Qed.

Lemma main_read_failure_witness :
  main (mk_args NotAFile 2025 2046) true =
  mk_outcome [MsgFileNotFound] (Uncaught TypeError) None.
Proof.
  apply (proj2 (proj2 (proj2 (proj2 main_read_failure)))
           (mk_args NotAFile 2025 2046) true); cbn; [lia|lia|reflexivity].
Defined.

(** ** Writing the output *)

Lemma fill_dummydata_nil (start_year last_year : Z) :
  fill_dummydata [] start_year last_year =
  Ok (map dummy_data (py_range start_year last_year)).
Proof.
  unfold fill_dummydata. cbn [year_list_of bind py_sorted_set ints_of strs_of
    flat_map nodup sort_by fold_right map].
  rewrite fill_loop_eq, filter_all; reflexivity.
Qed.

(** C10.  In a window with [start_year < last_year] of at most 100 years
    the list [fill_dummydata] returns has at least [last_year - start_year]
    records and so is not empty, also for an empty list of input items;
    and no run of [main] takes the branch of [save_csv] for empty data. *)
Theorem save_csv_never_empty :
  (forall plan_list full start_year last_year,
     start_year < last_year -> last_year - start_year <= 100 ->
     fill_dummydata plan_list start_year last_year = Ok full ->
     last_year - start_year <= Z.of_nat (List.length full) /\ full <> [] /\
     forall writable, fst (fst (save_csv writable full)) <> [MsgEmptyData]) /\
  (forall start_year last_year,
     start_year < last_year -> last_year - start_year <= 100 ->
     exists full,
       make_plan (PyRows []) start_year last_year = Ok [] /\
       fill_dummydata [] start_year last_year = Ok full /\
       Z.of_nat (List.length full) = last_year - start_year) /\
  (forall a writable, ~ In MsgEmptyData (printed (main a writable))).
Proof.
  assert (Hlen : forall plan_list full start_year last_year,
             start_year < last_year ->
             fill_dummydata plan_list start_year last_year = Ok full ->
             last_year - start_year <= Z.of_nat (List.length full) /\ full <> [] /\
             forall writable, fst (fst (save_csv writable full)) <> [MsgEmptyData]).
  { intros plan_list full start_year last_year Hlt Hfull.
    apply fill_dummydata_length in Hfull.
    destruct full as [|rec full]; [cbn in Hfull; lia|].
    split; [exact Hfull|]. split; [discriminate|].
    intros [|]; discriminate. }
  split; [intros; now apply (Hlen plan_list)|]. split.
  - intros start_year last_year Hlt _. eexists.
    split; [reflexivity|]. split; [apply fill_dummydata_nil|].
    rewrite length_map, py_range_length. lia.
  - intros a writable Hin. unfold main in Hin.
    destruct (Z.leb_spec (arg_last_year a) (arg_start_year a)) as [_|Hlt];
      [destruct Hin as [H|[]]; discriminate H|].
    destruct (arg_last_year a - arg_start_year a >? limmit_num);
      [destruct Hin as [H|[]]; discriminate H|].
    pose proof (read_csv_stderr (arg_file a) MsgEmptyData) as Hread.
    destruct (read_csv (arg_file a)) as [msgs data_list]. cbn [fst] in Hread.
    destruct (make_plan data_list _ _) as [plan_list|e];
      [|apply Hread in Hin; discriminate Hin].
    destruct (fill_dummydata plan_list _ _) as [full|e] eqn:Hfull;
      [|apply Hread in Hin; discriminate Hin].
    destruct (Hlen _ _ _ _ Hlt Hfull) as (_ & Hne & _).
    destruct full as [|rec full]; [now destruct Hne|].
    cbn [save_csv] in Hin. destruct writable; cbn [printed] in Hin;
      apply in_app_or in Hin as [Hin|Hin];
      [ apply Hread in Hin; discriminate Hin
      | destruct Hin
      | apply Hread in Hin; discriminate Hin
      | destruct Hin as [Hin|[]]; discriminate Hin ].
Qed.

Lemma save_csv_never_empty_witness :
  exists full,
    fill_dummydata [] 2025 2046 = Ok full /\
    2046 - 2025 <= Z.of_nat (List.length full) /\ full <> [].
Proof.
  exists (map dummy_data (py_range 2025 2046)).
  split; [apply fill_dummydata_nil|].
  destruct (proj1 save_csv_never_empty [] (map dummy_data (py_range 2025 2046))
              2025 2046) as (Hlen & Hne & _);
    [lia|lia|apply fill_dummydata_nil|].
  split; [exact Hlen|exact Hne].
Defined.

(** ** One-time items and independence of the items *)

(** An item whose period reads below 1 gives the single record of its
    first year when that year is in the window, and nothing otherwise. *)
Theorem make_plan_one_time_item (r : row) (c3 c4 : pystr)
    (Y P start_year last_year : Z) :
  py_get r 3 = Ok c3 -> py_int c3 = Ok Y ->
  py_get r 4 = Ok c4 -> py_int c4 = Ok P -> P < 1 ->
  make_plan (PyRows [r]) start_year last_year =
  Ok (if (start_year <=? Y) && (Y <? last_year) then [tmplist_of r Y] else []).
Proof.
  intros H3 HY H4 HP HP1. unfold make_plan. cbn [make_plan_rows].
  rewrite H3. cbn [bind]. rewrite HY. rewrite row_loop_range_eq.
  destruct (Z.ltb_spec Y last_year) as [Hlt|Hge].
  - rewrite (row_loop_one_time r start_year last_year 98 Y P c4) by assumption.
    cbn [exit_by plan_after]. rewrite Z.geb_leb.
    destruct (start_year <=? Y); reflexivity.
  - cbn [row_loop]. destruct (Z.geb_spec Y last_year); [|lia].
    cbn [exit_by plan_after]. now rewrite andb_false_r.
Qed.

Lemma make_plan_one_time_item_witness :
  make_plan (PyRows [roof_work "2030" "0"]) 2025 2046 =
  Ok [tmplist_of (roof_work "2030" "0") 2030].
Proof.
  apply (make_plan_one_time_item (roof_work "2030" "0") (u "2030") (u "0")
           2030 0 2025 2046); reflexivity.
Defined.

Lemma make_plan_rows_frame (rows : list row) (start_year last_year : Z) :
  forall plan_list,
    make_plan_rows rows start_year last_year plan_list =
    (plan_list ++ fst (make_plan_rows rows start_year last_year []),
     snd (make_plan_rows rows start_year last_year [])).
Proof.
  induction rows as [|r rows IH]; intros plan_list.
  - cbn. now rewrite app_nil_r.
  - cbn [make_plan_rows].
    destruct (c <- py_get r 3 ;; py_int c) as [yyyy|e];
      [|cbn; now rewrite app_nil_r].
    rewrite (row_loop_frame _ r yyyy start_year last_year plan_list).
    cbv zeta. cbn [exit_by plan_after].
    set (l := row_loop row_loop_range r yyyy start_year last_year []).
    destruct (exit_by l); try reflexivity;
      rewrite (IH (plan_list ++ plan_after l)), (IH (plan_after l));
      cbn [fst snd]; now rewrite app_assoc.
Qed.

(** The items are expanded one after the other and independently: the
    list [make_plan] returns is the concatenation, in input order, of what
    it returns for each item alone. *)
Theorem make_plan_item_by_item (rows : list row) (start_year last_year : Z) :
  Forall expandable rows ->
  make_plan (PyRows rows) start_year last_year =
  Ok (flat_map (fun r => fst (make_plan_rows [r] start_year last_year [])) rows).
Proof.
  intros Hrows. rewrite (make_plan_total rows start_year last_year Hrows).
  f_equal. induction Hrows as [|r rows Hr Hrows IH]; [reflexivity|].
  cbn [flat_map]. rewrite <- IH. clear IH.
  pose proof (make_plan_rows_total [r] start_year last_year
                (Forall_cons r Hr (Forall_nil _)) []) as Hone.
  cbn [make_plan_rows] in *.
  destruct (c <- py_get r 3 ;; py_int c) as [yyyy|e]; [|discriminate Hone].
  destruct (exit_by (row_loop row_loop_range r yyyy start_year last_year []));
    try discriminate Hone;
    cbn [fst]; now rewrite make_plan_rows_frame.
Qed.

Lemma make_plan_item_by_item_witness :
  make_plan (PyRows [roof_work "2025" "10"; roof_work "2030" "0"]) 2025 2046 =
  Ok (map (tmplist_of (roof_work "2025" "10")) [2025; 2035; 2045] ++
      [tmplist_of (roof_work "2030" "0") 2030]).
Proof.
  rewrite (make_plan_item_by_item
             [roof_work "2025" "10"; roof_work "2030" "0"] 2025 2046).
  - reflexivity.
  - repeat constructor.
    + exists (u "2025"), 2025. now split.
    + exists (u "10"), 10. now split.
    + exists (u "2030"), 2030. now split.
    + exists (u "0"), 0. now split.
Defined.

(** * Further properties of the script *)

(** ** [read_csv]: what a successful read returns *)

Lemma read_rows_clean (lines : list row) :
  existsb version_is_blank lines = false ->
  forall line_no rows,
    read_rows line_no lines EndOfFile rows =
    ([], PyRows (rows ++ filter (fun r => negb (row_is_blank r)) lines)).
Proof.
  induction lines as [|r lines IH]; intros Hclean line_no rows.
  - cbn. now rewrite app_nil_r.
  - cbn [existsb] in Hclean. apply orb_false_elim in Hclean as [Hr Hrest].
    cbn [read_rows filter]. unfold version_is_blank in Hr.
    destruct (row_is_blank r) eqn:Hblank; cbn [negb andb] in *;
      [now apply IH|].
    destruct r as [|version r]; [discriminate Hblank|].
    cbn [py_get nth_error]. rewrite Hr. rewrite IH by assumption.
    now rewrite <- app_assoc.
Qed.

(** When the reader reaches the end of the file and no data line has a
    blank version, [read_csv] prints nothing and returns the lines after
    the header that are not blank, in their order. *)
Theorem read_csv_rows (lines : list row) :
  existsb version_is_blank (tl lines) = false ->
  read_csv (Opens lines EndOfFile) =
  ([], PyRows (filter (fun r => negb (row_is_blank r)) (tl lines))).
Proof.
  intros Hclean. cbn [read_csv]. now rewrite read_rows_clean.
Qed.

Lemma read_csv_rows_witness :
  read_csv (Opens [header_line; roof_work "2025" "10"; []; [u " "; u ""];
                   roof_work "2027" "5"] EndOfFile) =
  ([], PyRows [roof_work "2025" "10"; roof_work "2027" "5"]) /\
  read_csv (Opens [] EndOfFile) = ([], PyRows []).
Proof.
  split.
  - apply (read_csv_rows [header_line; roof_work "2025" "10"; [];
                          [u " "; u ""]; roof_work "2027" "5"]).
    reflexivity.
  - apply (read_csv_rows []). reflexivity.
Defined.

Lemma read_rows_first_blank_version (pre post : list row) (bad : row)
    (ending : reader_end) :
  existsb version_is_blank pre = false -> version_is_blank bad = true ->
  forall line_no rows,
    read_rows line_no (pre ++ bad :: post) ending rows =
    ([MsgEmptyVersion (line_no + List.length pre) bad], PyFalse).
Proof.
  intros Hpre Hbad. induction pre as [|r pre IH]; intros line_no rows.
  - cbn [app read_rows List.length]. rewrite Nat.add_0_r.
    unfold version_is_blank in Hbad.
    destruct (row_is_blank bad); [discriminate Hbad|].
    destruct bad as [|version bad]; [discriminate Hbad|].
    cbn [negb andb] in Hbad. cbn [py_get nth_error]. now rewrite Hbad.
  - cbn [existsb] in Hpre. apply orb_false_elim in Hpre as [Hr Hrest].
    cbn [app read_rows List.length]. unfold version_is_blank in Hr.
    replace (line_no + S (List.length pre))%nat
      with (S line_no + List.length pre)%nat by lia.
    destruct (row_is_blank r) eqn:Hblank; cbn [negb andb] in *;
      [now apply IH|].
    destruct r as [|version r]; [discriminate Hblank|].
    cbn [py_get nth_error]. rewrite Hr. now apply IH.
Qed.

(** The read stops at the first data line with a blank version: the only
    message names that line and its number, counted from 2 for the line
    after the header, whatever follows it and however the reader would
    have ended. *)
Theorem read_csv_first_blank_version (header bad : row) (pre post : list row)
    (ending : reader_end) :
  existsb version_is_blank pre = false -> version_is_blank bad = true ->
  read_csv (Opens (header :: pre ++ bad :: post) ending) =
  ([MsgEmptyVersion (2 + List.length pre) bad], PyFalse).
Proof.
  intros Hpre Hbad. cbn [read_csv tl].
  now apply read_rows_first_blank_version.
Qed.

Lemma read_csv_first_blank_version_witness :
  read_csv (Opens [header_line; roof_work "2025" "10"; [];
                   [u ""; u "wall"]; [u " "; u "x"]] CsvError) =
  ([MsgEmptyVersion 4 [u ""; u "wall"]], PyFalse).
Proof.
  apply (read_csv_first_blank_version header_line [u ""; u "wall"]
           [roof_work "2025" "10"; []] [[u " "; u "x"]] CsvError);
    reflexivity.
Defined.

Lemma read_rows_outcome (lines : list row) (ending : reader_end) :
  forall line_no rows,
    Forall (fun r => version_is_blank r = false /\ row_is_blank r = false) rows ->
    (exists rows',
       read_rows line_no lines ending rows = ([], PyRows rows') /\
       Forall (fun r => version_is_blank r = false /\ row_is_blank r = false) rows') \/
    (exists m,
       read_rows line_no lines ending rows = ([m], PyFalse) /\
       stream_of m = Stderr).
Proof.
  induction lines as [|r lines IH]; intros line_no rows Hrows; cbn [read_rows].
  - destruct ending; [left; eauto|right; eauto..].
  - destruct (row_is_blank r) eqn:Hblank; [now apply IH|].
    destruct r as [|version r]; [discriminate Hblank|].
    cbn [py_get nth_error].
    destruct (strip_is_empty version) eqn:Hver; [right; eauto|].
    apply IH. apply Forall_app. split; [exact Hrows|].
    constructor; [|constructor]. unfold version_is_blank.
    rewrite Hblank, Hver. now split.
Qed.

(** A call of [read_csv] has one of three outcomes: a list of rows and no
    message, every row being a line that is not blank and has a version;
    or [False] and exactly one message, on standard error; or, when
    [path.is_file()] itself raises and only then, an uncaught [OSError]
    and no message.  Never a list together with a message, and never a
    row that would have been rejected. *)
Theorem read_csv_outcome (p : path_state) :
  (exists rows,
     read_csv_call p = Ok ([], PyRows rows) /\
     Forall (fun r => version_is_blank r = false /\ row_is_blank r = false) rows) \/
  (exists m, read_csv_call p = Ok ([m], PyFalse) /\ stream_of m = Stderr) \/
  (read_csv_call p = Raise OSError /\ p = CannotStat).
Proof.
  destruct p as [|f]; cbn [read_csv_call]; [right; right; now split|].
  destruct f as [| |lines ending]; cbn [read_csv];
    [right; left; eauto..|].
  destruct (read_rows_outcome (tl lines) ending 2 [] (Forall_nil _))
    as [(rows & -> & Hrows)|(m & -> & Hm)]; [left|right; left]; eauto.
Qed.

(** ** [make_plan]: bounds, and rows it cannot read *)

Lemma row_loop_length (r : row) (start_year last_year : Z) (n : nat) :
  forall yyyy plan_list,
    (List.length (plan_after (row_loop n r yyyy start_year last_year plan_list))
     <= List.length plan_list + n)%nat.
Proof.
  induction n as [|n IH]; intros yyyy plan_list; [cbn; lia|].
  cbn [row_loop]. destruct (yyyy >=? last_year); [cbn; lia|].
  assert (Hadd : (List.length (fst (add_planlist r yyyy start_year plan_list))
                  <= List.length plan_list + 1)%nat).
  { rewrite add_planlist_fst. destruct (yyyy >=? start_year); [|lia].
    rewrite length_app. cbn. lia. }
  destruct (add_planlist r yyyy start_year plan_list) as [pl next].
  cbn [fst] in Hadd.
  destruct next as [y'|e]; [|cbn; lia].
  destruct (c <- py_get r 4 ;; py_int c) as [p|e]; [|cbn; lia].
  destruct (p <? 1); [cbn; lia|].
  cbn [one_more plan_after]. specialize (IH y' pl). lia.
Qed.

Lemma make_plan_rows_length (rows : list row) (start_year last_year : Z) :
  forall plan_list,
    (List.length (fst (make_plan_rows rows start_year last_year plan_list))
     <= List.length plan_list + 99 * List.length rows)%nat.
Proof.
  induction rows as [|r rows IH]; intros plan_list; [cbn; lia|].
  cbn [make_plan_rows].
  destruct (c <- py_get r 3 ;; py_int c) as [yyyy|e]; [|cbn; lia].
  pose proof (row_loop_length r start_year last_year row_loop_range yyyy
                plan_list) as Hl.
  rewrite row_loop_range_eq in *.
  set (l := row_loop 99 r yyyy start_year last_year plan_list) in *.
  destruct (exit_by l); cbn [fst List.length];
    try (specialize (IH (plan_after l)); lia); lia.
Qed.

(** Every record of the list [make_plan] builds has its year inside
    [[start_year, last_year)], and a row gives at most 99 records; so the
    list is empty when the window is. This holds for the list as the loops
    leave it, and so for the list [make_plan] returns. *)
Theorem make_plan_bounds (rows : list row) (start_year last_year : Z) :
  let plan_list := fst (make_plan_rows rows start_year last_year []) in
  Forall (fun rec => exists y, year_of rec = Some y /\
                               start_year <= y < last_year) plan_list /\
  (List.length plan_list <= 99 * List.length rows)%nat /\
  (last_year <= start_year -> plan_list = []) /\
  (forall returned,
     make_plan (PyRows rows) start_year last_year = Ok returned ->
     returned = plan_list).
Proof.
  cbv zeta. split; [apply make_plan_rows_years|]. split.
  - pose proof (make_plan_rows_length rows start_year last_year []) as H.
    cbn [List.length] in H. lia.
  - split.
    + intros Hempty. pose proof (make_plan_rows_years rows start_year last_year) as H.
      destruct (fst (make_plan_rows rows start_year last_year []))
        as [|rec pl]; [reflexivity|].
      inversion H as [|? ? (y & _ & Hy) _]. lia.
    + intros returned H. symmetry. now apply make_plan_Ok.
Qed.

Lemma make_plan_rows_raise (pre post : list row) (r : row) (e : exn)
    (start_year last_year : Z) :
  Forall expandable pre ->
  (c <- py_get r 3 ;; py_int c) = Raise e ->
  forall plan_list,
    snd (make_plan_rows (pre ++ r :: post) start_year last_year plan_list) =
    Raise e.
Proof.
  intros Hpre Hr.
  induction Hpre as [|r0 pre [(c3 & Y & H3 & HY) (c4 & P & H4 & HP)] _ IH];
    intros plan_list.
  - cbn [app make_plan_rows]. now rewrite Hr.
  - cbn [app make_plan_rows]. rewrite H3. cbn [bind]. rewrite HY.
    pose proof (fun e' => row_loop_no_raise row_loop_range r0 c4 P Y start_year
                            last_year plan_list e' H4 HP) as Hno.
    destruct (exit_by _) as [| | |e']; try apply IH. now destruct (Hno e').
Qed.

(** [make_plan] fails fast: at the first row whose first-year field is
    missing ([IndexError]) or is no integer ([ValueError]), after rows it
    could expand, it raises that exception and returns no list, whatever
    rows follow. *)
Theorem make_plan_bad_year (pre post : list row) (r : row) (e : exn)
    (start_year last_year : Z) :
  Forall expandable pre ->
  (c <- py_get r 3 ;; py_int c) = Raise e ->
  make_plan (PyRows (pre ++ r :: post)) start_year last_year = Raise e.
Proof.
  intros Hpre Hr. unfold make_plan.
  pose proof (make_plan_rows_raise pre post r e start_year last_year Hpre Hr [])
    as H.
  destruct (make_plan_rows (pre ++ r :: post) start_year last_year [])
    as [pl res].
  cbn [snd] in H. now rewrite H.
Qed.

Lemma make_plan_bad_year_witness :
  make_plan (PyRows [roof_work "2025" "10"; roof_work "20x5" "10";
                     roof_work "2030" "5"]) 2025 2046 = Raise ValueError /\
  make_plan (PyRows [roof_work "2025" "10"; [u "1"; u "roof"]]) 2025 2046
  = Raise IndexError.
Proof.
  split.
  - apply (make_plan_bad_year [roof_work "2025" "10"] [roof_work "2030" "5"]
             (roof_work "20x5" "10")); [|reflexivity].
    repeat constructor.
    + exists (u "2025"), 2025. now split.
    + exists (u "10"), 10. now split.
  - apply (make_plan_bad_year [roof_work "2025" "10"] [] [u "1"; u "roof"]);
      [|reflexivity].
    repeat constructor.
    + exists (u "2025"), 2025. now split.
    + exists (u "10"), 10. now split.
Defined.

Lemma row_loop_past (n : nat) (r : row) (yyyy start_year last_year : Z)
    (plan_list : list record) :
  last_year <= yyyy ->
  row_loop (S n) r yyyy start_year last_year plan_list =
  mk_loop_end plan_list 1 WindowBreak.
Proof.
  intros Hge. cbn [row_loop].
  destruct (Z.geb_spec yyyy last_year); [reflexivity|lia].
Qed.

Lemma row_loop_period_raise (n : nat) (r : row) (yyyy start_year last_year : Z)
    (plan_list : list record) (e : exn) :
  yyyy < last_year -> (c <- py_get r 4 ;; py_int c) = Raise e ->
  exit_by (row_loop (S n) r yyyy start_year last_year plan_list) = Raised e.
Proof.
  intros Hlt He. cbn [row_loop].
  destruct (Z.geb_spec yyyy last_year); [lia|].
  unfold add_planlist.
  destruct (py_get r 4) as [c4|e4]; cbn [bind] in *.
  - rewrite He. reflexivity.
  - inversion He. reflexivity.
Qed.

(** The period of a row is read only after a record was built for it.  A
    row first due at or after [last_year] gives no record and no error,
    whatever its period field holds, even when it has none; a row first
    due before [last_year] whose period cannot be read makes [make_plan]
    raise. *)
Theorem make_plan_period_read_late (r : row) (c3 : pystr)
    (Y start_year last_year : Z) :
  py_get r 3 = Ok c3 -> py_int c3 = Ok Y ->
  (last_year <= Y -> make_plan (PyRows [r]) start_year last_year = Ok []) /\
  (forall e, Y < last_year -> (c <- py_get r 4 ;; py_int c) = Raise e ->
             make_plan (PyRows [r]) start_year last_year = Raise e).
Proof.
  intros H3 HY. unfold make_plan. cbn [make_plan_rows].
  rewrite H3. cbn [bind]. rewrite HY. rewrite row_loop_range_eq.
  change 99%nat with (S 98). split.
  - intros Hge. now rewrite row_loop_past.
  - intros e Hlt He.
    now rewrite (row_loop_period_raise 98 r Y start_year last_year [] e).
Qed.

Lemma make_plan_period_read_late_witness :
  make_plan (PyRows [roof_work "2050" "often"]) 2025 2046 = Ok [] /\
  make_plan (PyRows [[u "1"; u "roof"; u "repair"; u "2050"]]) 2025 2046 = Ok [] /\
  make_plan (PyRows [roof_work "2019" "often"]) 2025 2046 = Raise ValueError.
Proof.
  split; [|split].
  - apply (proj1 (make_plan_period_read_late (roof_work "2050" "often")
                    (u "2050") 2050 2025 2046 eq_refl eq_refl)). lia.
  - apply (proj1 (make_plan_period_read_late
                    [u "1"; u "roof"; u "repair"; u "2050"]
                    (u "2050") 2050 2025 2046 eq_refl eq_refl)). lia.
  - apply (proj2 (make_plan_period_read_late (roof_work "2019" "often")
                    (u "2019") 2019 2025 2046 eq_refl eq_refl));
      [lia|reflexivity].
Defined.

(** ** [add_planlist]: the record of a row *)

(** For a row of at least six fields and a year not before [start_year],
    [add_planlist] appends one record at the end of the list and leaves
    the records before it alone: the record copies the version, the kind,
    the name, the amount and whatever follows it from the row, drops the
    first-year and period fields, and carries the year, [1], the unit and
    [0] at indices 1, 4, 5 and 7.  It returns the year advanced by the
    period. *)
Theorem add_planlist_record (ver kind name first period amount : pystr)
    (rest : list pystr) (yyyy P start_year : Z) (plan_list : list record) :
  py_int period = Ok P -> start_year <= yyyy ->
  add_planlist (ver :: kind :: name :: first :: period :: amount :: rest)
    yyyy start_year plan_list =
  (plan_list ++
   [[PStr ver; PInt yyyy; PStr kind; PStr name; PInt 1; PStr unit_shiki;
     PStr amount; PInt 0] ++ map PStr rest],
   Ok (yyyy + P)).
Proof.
  intros HP Hy. unfold add_planlist. cbn [py_get nth_error bind].
  rewrite HP. cbn [bind].
  destruct (Z.geb_spec yyyy start_year); [|lia].
  replace (tmplist_of (ver :: kind :: name :: first :: period :: amount :: rest)
             yyyy)
    with ([PStr ver; PInt yyyy; PStr kind; PStr name; PInt 1; PStr unit_shiki;
           PStr amount; PInt 0] ++ map PStr rest); [reflexivity|].
  unfold tmplist_of, py_del_slice, py_insert. cbn.
  destruct rest; reflexivity.
Qed.

Lemma add_planlist_record_witness :
  add_planlist (roof_work "2025" "10") 2035 2025 [] =
  ([[PStr (u "1"); PInt 2035; PStr (u "roof"); PStr (u "roof repair");
     PInt 1; PStr unit_shiki; PStr (u "500000"); PInt 0; PStr (u "")]],
   Ok 2045).
Proof.
  apply (add_planlist_record (u "1") (u "roof") (u "roof repair") (u "2025")
           (u "10") (u "500000") [u ""] 2035 10 2025 []); [reflexivity|lia].
Defined.

(** ** [fill_dummydata]: what is appended, and when it raises *)

Lemma py_range_from_sorted (lo : Z) (n : nat) :
  forall a, StronglySorted Z.lt (map (fun i => lo + Z.of_nat i) (seq a n)).
Proof.
  induction n as [|n IH]; intros a; [constructor|].
  cbn [seq map]. constructor; [apply IH|].
  apply Forall_forall. intros y Hy.
  apply in_map_iff in Hy as (i & <- & Hi). apply in_seq in Hi. lia.
Qed.

Lemma py_range_sorted (lo hi : Z) : StronglySorted Z.lt (py_range lo hi).
Proof. apply py_range_from_sorted. Qed.

Lemma filter_sorted {A} (R : A -> A -> Prop) (f : A -> bool) (l : list A) :
  StronglySorted R l -> StronglySorted R (filter f l).
Proof.
  induction 1 as [|a l _ IH Ha]; [constructor|].
  cbn [filter]. destruct (f a); [|exact IH].
  constructor; [exact IH|].
  apply Forall_forall. intros y Hy. apply filter_In in Hy as [Hy _].
  rewrite Forall_forall in Ha. now apply Ha.
Qed.

(** [fill_dummydata] keeps the records it was given, in their order, and
    appends after them one dummy record for each year of the window that
    is the year field of none of them, in ascending order of the years;
    a year that already has a record gets no dummy. *)
Theorem fill_dummydata_appends (plan_list full : list record)
    (start_year last_year : Z) :
  fill_dummydata plan_list start_year last_year = Ok full ->
  exists missing,
    full = plan_list ++
           map (fun y => [PInt 5; PInt y; PStr dummy_label; PStr dummy_label;
                          PInt 1; PStr unit_shiki; PInt 0; PInt 0; PStr []])
               missing /\
    StronglySorted Z.lt missing /\
    forall y, In y missing <->
              start_year <= y < last_year /\
              ~ exists rec, In rec plan_list /\ nth_error rec 1 = Some (PInt y).
Proof.
  intros H. apply fill_dummydata_Ok in H as (ys & Hys & ->).
  exists (missing_years ys start_year last_year).
  split; [reflexivity|]. split; [apply filter_sorted, py_range_sorted|].
  intros y. rewrite missing_years_In.
  pose proof (year_list_of_Ok _ _ Hys) as HF.
  split; intros [Hy Hno]; (split; [exact Hy|]).
  - intros (rec & Hrec & Hnth). apply Hno.
    destruct (Forall2_In_l _ _ _ _ HF Hrec) as (v & Hv & Hnth').
    rewrite Hnth in Hnth'. now inversion Hnth'; subst.
  - intros Hin. apply Hno.
    destruct (Forall2_In_r _ _ _ _ HF Hin) as (rec & Hrec & Hnth). eauto.
Qed.

Lemma fill_dummydata_appends_witness :
  exists missing,
    map (tmplist_of (roof_work "2025" "10")) [2027; 2025] ++
    map dummy_data [2026; 2028; 2029] =
    map (tmplist_of (roof_work "2025" "10")) [2027; 2025] ++
    map (fun y => [PInt 5; PInt y; PStr dummy_label; PStr dummy_label;
                   PInt 1; PStr unit_shiki; PInt 0; PInt 0; PStr []])
        missing /\
    StronglySorted Z.lt missing /\ In 2026 missing /\ ~ In 2027 missing.
Proof.
  assert (H : fill_dummydata
                (map (tmplist_of (roof_work "2025" "10")) [2027; 2025])
                2025 2030 =
              Ok (map (tmplist_of (roof_work "2025" "10")) [2027; 2025] ++
                  map dummy_data [2026; 2028; 2029])) by reflexivity.
  destruct (fill_dummydata_appends _ _ _ _ H) as (missing & Hfull & Hs & Hin).
  exists missing. split; [exact Hfull|]. split; [exact Hs|]. split.
  - apply Hin. split; [lia|]. intros (rec & Hrec & Hnth).
    destruct Hrec as [<-|[<-|[]]]; discriminate Hnth.
  - intros H27. apply Hin in H27 as [_ Hno]. apply Hno.
    exists (tmplist_of (roof_work "2025" "10") 2027).
    split; [now left|reflexivity].
Defined.

Lemma year_list_of_short (plan_list : list record) :
  Exists (fun rec => (List.length rec < 2)%nat) plan_list ->
  year_list_of plan_list = Raise IndexError.
Proof.
  induction 1 as [rec plan_list Hshort|rec plan_list _ IH]; cbn [year_list_of].
  - unfold py_get.
    assert (Hnone : nth_error rec 1 = None) by (apply nth_error_None; lia).
    now rewrite Hnone.
  - rewrite IH. unfold py_get. now destruct (nth_error rec 1).
Qed.

Lemma year_list_of_long (plan_list : list record) :
  Forall (fun rec => (2 <= List.length rec)%nat) plan_list ->
  exists ys, year_list_of plan_list = Ok ys.
Proof.
  induction 1 as [|rec plan_list Hlong _ (ys & IH)]; [now exists []|].
  cbn [year_list_of]. rewrite IH. unfold py_get.
  destruct (nth_error rec 1) as [v|] eqn:Hv; [now exists (v :: ys)|].
  apply nth_error_None in Hv. lia.
Qed.

(** [fill_dummydata] raises on lists it cannot read the years of: an
    [IndexError] when a record has fewer than two fields, and, when every
    record has two, a [TypeError] when one year field is an [int] and
    another a [str], since the years are sorted. *)
Theorem fill_dummydata_raises (plan_list : list record)
    (start_year last_year : Z) :
  (Exists (fun rec => (List.length rec < 2)%nat) plan_list ->
   fill_dummydata plan_list start_year last_year = Raise IndexError) /\
  (Forall (fun rec => (2 <= List.length rec)%nat) plan_list ->
   (exists rec y, In rec plan_list /\ nth_error rec 1 = Some (PInt y)) ->
   (exists rec t, In rec plan_list /\ nth_error rec 1 = Some (PStr t)) ->
   fill_dummydata plan_list start_year last_year = Raise TypeError).
Proof.
  unfold fill_dummydata. split.
  - intros Hshort. now rewrite year_list_of_short.
  - intros Hlong (ri & y & Hri & Hy) (rs & t & Hrs & Ht).
    destruct (year_list_of_long plan_list Hlong) as (ys & Hys).
    rewrite Hys. cbn [bind].
    pose proof (year_list_of_Ok _ _ Hys) as HF.
    destruct (Forall2_In_l _ _ _ _ HF Hri) as (v & Hv & Hnv).
    destruct (Forall2_In_l _ _ _ _ HF Hrs) as (w & Hw & Hnw).
    rewrite Hy in Hnv. rewrite Ht in Hnw.
    inversion Hnv; inversion Hnw; subst v w.
    apply ints_of_In, (nodup_In Z.eq_dec) in Hv.
    apply strs_of_In, (nodup_In (list_eq_dec N.eq_dec)) in Hw.
    unfold py_sorted_set.
    destruct (nodup Z.eq_dec (ints_of ys)); [destruct Hv|].
    destruct (nodup (list_eq_dec N.eq_dec) (strs_of ys)); [destruct Hw|].
    reflexivity.
Qed.

Lemma fill_dummydata_raises_witness :
  fill_dummydata [dummy_data 2025; [PInt 5]] 2025 2030 = Raise IndexError /\
  fill_dummydata [dummy_data 2025; [PStr (u "1"); PStr (u "2026")]] 2025 2030
  = Raise TypeError.
Proof.
  split.
  - apply (proj1 (fill_dummydata_raises [dummy_data 2025; [PInt 5]] 2025 2030)).
    right. left. cbn. lia.
  - apply (proj2 (fill_dummydata_raises
                    [dummy_data 2025; [PStr (u "1"); PStr (u "2026")]]
                    2025 2030)).
    + repeat constructor; cbn; lia.
    + exists (dummy_data 2025), 2025. split; [now left|reflexivity].
    + exists [PStr (u "1"); PStr (u "2026")], (u "2026").
      split; [right; now left|reflexivity].
Defined.

(** For an empty window, [last_year <= start_year], [fill_dummydata]
    returns a list of records with [int] years as it is. *)
Theorem fill_dummydata_empty_window (plan_list : list record)
    (start_year last_year : Z) :
  Forall (fun rec => exists y, year_of rec = Some y) plan_list ->
  last_year <= start_year ->
  fill_dummydata plan_list start_year last_year = Ok plan_list.
Proof.
  intros Hint Hempty.
  destruct (fill_dummydata_total plan_list start_year last_year Hint)
    as (full & Hfull).
  rewrite Hfull. f_equal.
  apply (fill_dummydata_covered plan_list full start_year last_year Hfull).
  intros y Hy. lia.
Qed.

Lemma fill_dummydata_empty_window_witness :
  fill_dummydata [dummy_data 2040; dummy_data 2010] 2030 2025 =
  Ok [dummy_data 2040; dummy_data 2010].
Proof.
  apply (fill_dummydata_empty_window [dummy_data 2040; dummy_data 2010] 2030 2025);
    [|lia].
  repeat constructor; [exists 2040|exists 2010]; reflexivity.
Defined.

(** ** [main]: when it exits, what it writes *)

Lemma read_csv_rows_silent (f : file_state) (rows : list row) :
  snd (read_csv f) = PyRows rows -> fst (read_csv f) = [].
Proof.
  destruct f as [| |lines ending]; cbn [read_csv]; try discriminate.
  destruct (read_rows_outcome (tl lines) ending 2 [] (Forall_nil _))
    as [(rows' & -> & _)|(m & -> & _)]; [reflexivity|discriminate].
Qed.


(** [main] writes nothing partial.  When it writes a list, the output
    could be opened, the window is valid, the read gave rows and no
    message, the list is what [fill_dummydata] made of what [make_plan]
    returned for those rows, it has a record for every year of the window,
    nothing was printed, and [main] returned. *)
Theorem main_written (a : args) (writable : bool) (full : list record) :
  written (main a writable) = Some full ->
  writable = true /\
  arg_start_year a < arg_last_year a /\
  arg_last_year a - arg_start_year a <= 100 /\
  ended (main a writable) = Returns /\
  printed (main a writable) = [] /\
  (exists rows plan_list,
     read_csv (arg_file a) = ([], PyRows rows) /\
     make_plan (PyRows rows) (arg_start_year a) (arg_last_year a) = Ok plan_list /\
     fill_dummydata plan_list (arg_start_year a) (arg_last_year a) = Ok full) /\
  (forall y, arg_start_year a <= y < arg_last_year a ->
             exists rec, In rec full /\ year_of rec = Some y).
Proof.
  unfold main.
  destruct (Z.leb_spec (arg_last_year a) (arg_start_year a)) as [Hle|Hgt];
    [discriminate|].
  destruct (Z.gtb_spec (arg_last_year a - arg_start_year a) limmit_num)
    as [Hspan|Hspan]; unfold limmit_num in Hspan; [discriminate|].
  pose proof (read_csv_rows_silent (arg_file a)) as Hsilent.
  destruct (read_csv (arg_file a)) as [msgs data_list]. cbn [fst snd] in Hsilent.
  destruct data_list as [|rows]; [discriminate|].
  rewrite (Hsilent rows eq_refl).
  destruct (make_plan (PyRows rows) _ _) as [plan_list|e] eqn:Hplan;
    [|discriminate].
  destruct (fill_dummydata plan_list _ _) as [full'|e] eqn:Hfull;
    [|discriminate].
  unfold save_csv. destruct full' as [|rec full']; [discriminate|].
  destruct writable; [|discriminate].
  cbn [written ended printed app]. intros Hw. injection Hw as <-.
  repeat split; try assumption.
  - exists rows, plan_list. repeat split; assumption.
  - now apply (fill_dummydata_covers plan_list).
Qed.

Lemma main_written_witness :
  written (main (mk_args (Opens [header_line; roof_work "2025" "10"] EndOfFile)
                   2025 2046) true) <> None /\
  printed (main (mk_args (Opens [header_line; roof_work "2025" "10"] EndOfFile)
                   2025 2046) true) = [].
Proof.
  destruct (written (main (mk_args (Opens [header_line; roof_work "2025" "10"]
                                      EndOfFile) 2025 2046) true))
    as [full|] eqn:Hw; [|vm_compute in Hw; discriminate Hw].
  split; [discriminate|].
  now destruct (main_written _ _ _ Hw) as (_ & _ & _ & _ & Hp & _).
Defined.

(** A run on good input.  In a valid window, for a file read to its end
    whose data lines have a version and, blank lines apart, an integer
    first year and period, [main] returns with exit status 0.  When the
    output can be written it prints nothing and writes the filled list,
    which has at least one record per year of the window; when it cannot,
    it prints the write error, the list is not written (the file may be
    left empty or partial), and it still returns with exit status 0. *)
Theorem main_good_input (lines : list row) (start_year last_year : Z)
    (writable : bool) :
  start_year < last_year -> last_year - start_year <= 100 ->
  existsb version_is_blank (tl lines) = false ->
  Forall expandable (filter (fun r => negb (row_is_blank r)) (tl lines)) ->
  exists plan_list full,
    make_plan (PyRows (filter (fun r => negb (row_is_blank r)) (tl lines)))
      start_year last_year = Ok plan_list /\
    fill_dummydata plan_list start_year last_year = Ok full /\
    last_year - start_year <= Z.of_nat (List.length full) /\
    main (mk_args (Opens lines EndOfFile) start_year last_year) writable =
    mk_outcome (if writable then [] else [MsgWriteError]) Returns
               (if writable then Some full else None) /\
    exit_status
      (ended (main (mk_args (Opens lines EndOfFile) start_year last_year)
                writable)) = 0.
Proof.
  intros Hlt Hspan Hclean Hrows.
  set (rows := filter (fun r => negb (row_is_blank r)) (tl lines)) in *.
  pose proof (make_plan_total rows start_year last_year Hrows) as Hplan.
  destruct (fill_dummydata_total
              (fst (make_plan_rows rows start_year last_year []))
              start_year last_year) as (full & Hfull).
  { eapply Forall_impl; [|apply make_plan_rows_years].
    intros rec (y & Hy & _). now exists y. }
  pose proof (fill_dummydata_length _ _ _ _ Hfull) as Hlen.
  eexists. exists full. split; [exact Hplan|]. split; [exact Hfull|].
  split; [exact Hlen|].
  assert (Hmain : main (mk_args (Opens lines EndOfFile) start_year last_year)
                    writable =
                  mk_outcome (if writable then [] else [MsgWriteError]) Returns
                             (if writable then Some full else None)).
  { unfold main. cbn [arg_start_year arg_last_year arg_file read_csv].
    destruct (Z.leb_spec last_year start_year); [lia|].
    destruct (Z.gtb_spec (last_year - start_year) limmit_num) as [Hgt|_];
      [unfold limmit_num in Hgt; lia|].
    rewrite (read_rows_clean (tl lines) Hclean 2 []). cbn [app].
    fold rows. rewrite Hplan, Hfull.
    destruct full as [|rec full]; [cbn in Hlen; lia|].
    destruct writable; reflexivity. }
  split; [exact Hmain|]. now rewrite Hmain.
Qed.

Lemma main_good_input_witness :
  exists full,
    main (mk_args (Opens [header_line; roof_work "2025" "10"; [];
                          roof_work "2019" "0"] EndOfFile) 2025 2046) false =
    mk_outcome [MsgWriteError] Returns None /\
    main (mk_args (Opens [header_line; roof_work "2025" "10"; [];
                          roof_work "2019" "0"] EndOfFile) 2025 2046) true =
    mk_outcome [] Returns (Some full) /\
    List.length full = 21%nat.
Proof.
  assert (Hrows : Forall expandable
            (filter (fun r => negb (row_is_blank r))
               (tl [header_line; roof_work "2025" "10"; [];
                    roof_work "2019" "0"]))).
  { repeat constructor.
    - exists (u "2025"), 2025. now split.
    - exists (u "10"), 10. now split.
    - exists (u "2019"), 2019. now split.
    - exists (u "0"), 0. now split. }
  destruct (main_good_input
              [header_line; roof_work "2025" "10"; []; roof_work "2019" "0"]
              2025 2046 false) as (plan0 & full0 & _ & _ & _ & Hfalse & _);
    [lia|lia|reflexivity|exact Hrows|].
  destruct (main_good_input
              [header_line; roof_work "2025" "10"; []; roof_work "2019" "0"]
              2025 2046 true) as (plan1 & full & Hplan & Hfull & _ & Htrue & _);
    [lia|lia|reflexivity|exact Hrows|].
  exists full. split; [exact Hfalse|]. split; [exact Htrue|].
  vm_compute in Hplan. injection Hplan as <-.
  vm_compute in Hfull. injection Hfull as <-. reflexivity.
Defined.

(** ** [make_plan]: a periodic item under the cap *)

Lemma cursor_years_sorted (p last_year : Z) (n : nat) :
  1 <= p ->
  forall yyyy, StronglySorted Z.lt (cursor_years n yyyy p last_year).
Proof.
  intros Hp. induction n as [|n IH]; intros yyyy; [constructor|].
  cbn [cursor_years]. destruct (yyyy >=? last_year); [constructor|].
  constructor; [apply IH|].
  apply Forall_forall. intros y Hy.
  apply cursor_years_In in Hy as (_ & k & Hk & ->); [nia|exact Hp].
Qed.

(** What [make_plan] returns for any row with first year [Y] and period
    [P >= 1], cap included: the records of the years [Y + k * P] with
    [k] from 0 to 98 that lie in [[start_year, last_year)], in ascending
    order, one each.  Occurrences from the hundredth on, and years before
    [start_year], give no record. *)
Theorem make_plan_periodic_capped (r : row) (c3 c4 : pystr)
    (Y P start_year last_year : Z) :
  py_get r 3 = Ok c3 -> py_int c3 = Ok Y ->
  py_get r 4 = Ok c4 -> py_int c4 = Ok P -> 1 <= P ->
  exists years,
    make_plan (PyRows [r]) start_year last_year = Ok (map (tmplist_of r) years) /\
    StronglySorted Z.lt years /\
    forall y, In y years <->
              start_year <= y < last_year /\
              exists k, 0 <= k < 99 /\ y = Y + k * P.
Proof.
  intros H3 HY H4 HP HP1.
  exists (filter (fun y => y >=? start_year)
            (cursor_years row_loop_range Y P last_year)).
  split; [now apply (make_plan_periodic r c3 c4)|].
  split; [now apply filter_sorted, cursor_years_sorted|].
  intros y. rewrite filter_In, cursor_years_In by exact HP1.
  rewrite row_loop_range_eq. split.
  - intros ((Hlt & k & Hk & ->) & Hge). apply Z.geb_le in Hge.
    split; [lia|]. exists k. lia.
  - intros (Hy & k & Hk & ->). split; [|apply Z.geb_le; lia].
    split; [lia|]. exists k. lia.
Qed.

Lemma make_plan_periodic_capped_witness :
  exists years,
    make_plan (PyRows [roof_work "2020" "1"]) 2025 2125 =
    Ok (map (tmplist_of (roof_work "2020" "1")) years) /\
    In 2025 years /\ In 2118 years /\ ~ In 2119 years /\ ~ In 2024 years.
Proof.
  destruct (make_plan_periodic_capped (roof_work "2020" "1") (u "2020") (u "1")
              2020 1 2025 2125) as (years & Hplan & _ & Hin);
    try reflexivity; try lia.
  exists years. split; [exact Hplan|]. repeat split.
  - apply Hin. split; [lia|]. exists 5. lia.
  - apply Hin. split; [lia|]. exists 98. lia.
  - intros H. apply Hin in H as (_ & k & Hk & Heq). lia.
  - intros H. apply Hin in H as (Hy & _). lia.
Defined.
